(** * Solar-Prediction: the Streamlit prediction page of [app.py]

    A shallow embedding of the part of [app.py] that carries logic: the
    cached model loader [load_model] (lines 108-117), the seven
    [st.number_input] widgets (lines 175-234), and the output column
    (lines 244-288) that builds the feature matrix, calls
    [model.predict(features).item()] and renders the result or an error.
    The static markup of the page (style sheet, hero section, footer) has
    no behaviour and is left out.

    Python values are modelled as the code has them: a [float] is an
    IEEE-754 binary64 datum ([spec_float]), a [str] is a [string], the
    store of [st.cache_resource], the widget values of the session and the
    file system are finite maps, and the statements of the script run in a
    state-and-exception monad whose state records the cache, the history
    of file accesses and inference calls, and the rendered elements.  The
    model artifact is opaque and mutable: its [predict] method is an
    arbitrary function of the batches it has served before and of the
    batch at hand, to an array or an exception.  An exception carries the
    frames of [app.py] it has passed, which is what [st.exception] shows
    as its stack trace. *)

From Stdlib Require Import ZArith List String Ascii Bool Lia DecimalPos.
From Stdlib Require Import Floats.SpecFloat.
From Stdlib Require DecimalN.
From stdpp Require Import gmap strings list fin_maps.

Open Scope string_scope.
Open Scope list_scope.

(** ** Python floats *)

Module PyFloat.

(** A Python [float] is a binary64 number: 53 bits of precision, largest
    exponent 1024. *)
Abbreviation float := spec_float.

Definition prec : Z := 53.
Definition emax : Z := 1024.

Definition is_binary64 (x : float) : bool := valid_binary prec emax x.

(** The literal [n.0] for an integer [n]. *)
Definition of_Z (n : Z) : float := binary_normalize prec emax n 0 false.

(** The literal whose decimal expansion is [n / d]: the correctly rounded
    quotient, which is how Python reads [3.5] or [0.1]. *)
Definition of_ratio (n : Z) (d : positive) : float :=
  SFdiv prec emax (of_Z n) (of_Z (Zpos d)).

Definition is_finite (x : float) : bool :=
  match x with
  | S754_zero _ | S754_finite _ _ _ => true
  | S754_infinity _ | S754_nan => false
  end.

(** [x < y] on floats; every comparison with NaN is false. *)
Definition ltb (x y : float) : bool := SFltb x y.

Definition infinity : float := S754_infinity false.
Definition neg_infinity : float := S754_infinity true.
Definition nan : float := S754_nan.

End PyFloat.

Import PyFloat.

(** ** The format specifications [.2f] and [,.2f] *)

Module Format.

Local Open Scope Z_scope.

Definition digit_char (d : Z) : ascii := ascii_of_nat (48 + Z.to_nat d).

Definition is_digit (c : ascii) : bool :=
  let n := nat_of_ascii c in (48 <=? n)%nat && (n <=? 57)%nat.

(** Decimal digits of a natural number, most significant first. *)
Fixpoint uint_digits (u : Decimal.uint) : list ascii :=
  match u with
  | Decimal.Nil => []
  | Decimal.D0 u' => "0"%char :: uint_digits u'
  | Decimal.D1 u' => "1"%char :: uint_digits u'
  | Decimal.D2 u' => "2"%char :: uint_digits u'
  | Decimal.D3 u' => "3"%char :: uint_digits u'
  | Decimal.D4 u' => "4"%char :: uint_digits u'
  | Decimal.D5 u' => "5"%char :: uint_digits u'
  | Decimal.D6 u' => "6"%char :: uint_digits u'
  | Decimal.D7 u' => "7"%char :: uint_digits u'
  | Decimal.D8 u' => "8"%char :: uint_digits u'
  | Decimal.D9 u' => "9"%char :: uint_digits u'
  end.

Definition digits (n : Z) : list ascii := uint_digits (N.to_uint (Z.to_N n)).

(** The [,] option: a comma between groups of three digits, counted from
    the right.  The argument and the result are least significant first. *)
Fixpoint group3_rev (ds : list ascii) : list ascii :=
  match ds with
  | a :: b :: c :: ((_ :: _) as rest) =>
      a :: b :: c :: ","%char :: group3_rev rest
  | _ => ds
  end.

Definition group3 (ds : list ascii) : list ascii := rev (group3_rev (rev ds)).

(** [n / d] rounded to the nearest integer, ties to the even one
    ([0 <= n], [0 < d]). *)
Definition round_half_even (n d : Z) : Z :=
  let q := n / d in
  match 2 * (n mod d) ?= d with
  | Lt => q
  | Gt => q + 1
  | Eq => if Z.even q then q else q + 1
  end.

(** [|x| * 100] for [|x| = m * 2^e], correctly rounded to an integer:
    the two decimals that [.2f] keeps. *)
Definition hundredths (m : positive) (e : Z) : Z :=
  if 0 <=? e then Zpos m * 2 ^ e * 100
  else round_half_even (Zpos m * 100) (2 ^ (- e)).

Definition sign_chars (s : bool) : list ascii :=
  if s then ["-"%char] else [].

Definition fixed2 (comma : bool) (s : bool) (h : Z) : list ascii :=
  let ip := digits (h / 100) in
  sign_chars s ++ (if comma then group3 ip else ip)
    ++ "."%char :: digit_char (h mod 100 / 10) :: digit_char (h mod 10) :: [].

(** [format(x, ".2f")] when [comma] is false, [format(x, ",.2f")] when it
    is true. *)
Definition format_2f_chars (comma : bool) (x : float) : list ascii :=
  match x with
  | S754_nan => list_ascii_of_string "nan"
  | S754_infinity s => sign_chars s ++ list_ascii_of_string "inf"
  | S754_zero s => fixed2 comma s 0
  | S754_finite s m e => fixed2 comma s (hundredths m e)
  end.

Definition format_2f (x : float) : string :=
  string_of_list_ascii (format_2f_chars false x).

Definition format_comma_2f (x : float) : string :=
  string_of_list_ascii (format_2f_chars true x).

(** A text shows a number with exactly two decimal places: it ends in a
    point followed by two digits, at least one digit stands before the
    point, and there is no other point. *)
Definition not_point (c : ascii) : bool :=
  negb (Ascii.eqb c "."%char).

Definition two_decimal_places_chars (l : list ascii) : bool :=
  match rev l with
  | d2 :: d1 :: p :: d0 :: rest =>
      is_digit d2 && is_digit d1 && Ascii.eqb p "."%char
        && is_digit d0 && forallb not_point rest
  | _ => false
  end.

Definition two_decimal_places (s : string) : bool :=
  two_decimal_places_chars (list_ascii_of_string s).

End Format.

Import Format.

(** ** Exceptions, arrays and the model artifact *)

(** The exception classes that the handlers of the page tell apart:
    [FileNotFoundError] (and its subclasses), the other subclasses of
    [Exception], and the classes that derive from [BaseException] only
    ([KeyboardInterrupt], [SystemExit]), which [except Exception] lets
    through. *)
Inductive exn_class : Type :=
| FileNotFoundError
| ValueError
| OtherException (name : string)
| NonException (name : string).

(** A frame of the call stack that lies in [app.py]: the line being
    executed and the function, [<module>] for the script itself. *)
Record frame : Type := mk_frame { frame_line : Z; frame_function : string }.

(** An exception object: its class, [str(e)] and its traceback.  The
    traceback lists the frames of [app.py] that the exception has passed,
    outermost first; the frames of library code between or below them are
    not listed. *)
Record exn : Type := mk_exn {
  class_of : exn_class;
  str : string;
  traceback : list frame
}.

(** The exception after it has left a statement of frame [f]. *)
Definition in_frame (f : frame) (e : exn) : exn :=
  mk_exn (class_of e) (str e) (f :: traceback e).

Definition is_FileNotFoundError (e : exn) : bool :=
  match class_of e with FileNotFoundError => true | _ => false end.

Definition is_Exception (e : exn) : bool :=
  match class_of e with NonException _ => false | _ => true end.

Inductive result (A : Type) : Type :=
| Ok (a : A)
| Raise (e : exn).
Arguments Ok {A} a.
Arguments Raise {A} e.

Definition framed {A : Type} (f : frame) (r : result A) : result A :=
  match r with
  | Ok a => Ok a
  | Raise e => Raise (in_frame f e)
  end.

(** A numpy array of floats, one- or two-dimensional. *)
Inductive ndarray : Type :=
| Array1 (data : list float)
| Array2 (rows : list (list float)).

Definition flat (a : ndarray) : list float :=
  match a with
  | Array1 data => data
  | Array2 rows => concat rows
  end.

Definition array_size (a : ndarray) : nat := length (flat a).

Definition shape (a : ndarray) : list nat :=
  match a with
  | Array1 data => [length data]
  | Array2 rows => [length rows; length (hd [] rows)]
  end.

Definition item_error : exn :=
  mk_exn ValueError "can only convert an array of size 1 to a Python scalar" [].

(** [a.item()]: the element of an array of size one, a [ValueError]
    otherwise. *)
Definition item (a : ndarray) : result float :=
  match flat a with
  | [x] => Ok x
  | _ => Raise item_error
  end.

(** The model artifact: an object in memory, known by its identity, whose
    [predict] method maps a batch of rows to an array or raises.  The
    object is mutable and is shared by all the calls that reach it, so what
    it answers may depend on the state its earlier calls left it in (a
    counter, a generator of pseudo-random numbers): [predict] takes the
    batches the object has served so far, oldest first, before the batch
    to predict. *)
Record Predictor : Type := mk_Predictor {
  obj_id : nat;
  predict : list ndarray -> ndarray -> result ndarray
}.

(** What a path of the file system holds, as far as [joblib.load] can tell:
    a pickled model, or something whose loading raises (a truncated pickle,
    a directory). *)
Inductive file : Type :=
| Pickled (predict_method : list ndarray -> ndarray -> result ndarray)
| Unloadable (e : exn).

(** ** What a run renders and what it touches *)

#[warnings="-register-all"] Inductive element : Type :=
| Markdown (body : string)
| Info (body : string)
| Error (body : string)
| ExceptionBox (e : exn)
| Metric (label value : string)
| Success (body : string)
| Write (a : ndarray)
| Expander (label : string) (expanded : bool) (children : list element).

Inductive event : Type :=
| EvExists (abs_path : string)
| EvJoblibLoad (abs_path : string)
| EvPredict (model : nat) (features : ndarray).

(** The batches that a history has passed to the object [id]. *)
Definition calls_to (id : nat) (l : list event) : list ndarray :=
  flat_map
    (fun ev =>
       match ev with
       | EvPredict id' x => if Nat.eqb id' id then [x] else []
       | _ => []
       end) l.

(** The state of the server process.  [cache] is the store of
    [st.cache_resource] for [load_model], keyed by the arguments that a
    call passes: [None] for [load_model()], [Some p] for [load_model(p)]
    and [load_model(model_path=p)];
    [session] holds the committed widget values, keyed by label; [events]
    is the history of file-system accesses and inference calls; [page] is
    what the current run has rendered in the output column. *)
Record world : Type := mk_world {
  fs : gmap string file;
  cwd : string;
  cache : gmap (option string) Predictor;
  next_id : nat;
  session : gmap string float;
  events : list event;
  page : list element
}.

Definition set_cache (c : gmap (option string) Predictor) (w : world) : world :=
  mk_world (fs w) (cwd w) c (next_id w) (session w) (events w) (page w).
Definition set_next_id (n : nat) (w : world) : world :=
  mk_world (fs w) (cwd w) (cache w) n (session w) (events w) (page w).
Definition set_session (s : gmap string float) (w : world) : world :=
  mk_world (fs w) (cwd w) (cache w) (next_id w) s (events w) (page w).
Definition set_events (l : list event) (w : world) : world :=
  mk_world (fs w) (cwd w) (cache w) (next_id w) (session w) l (page w).
Definition set_page (l : list element) (w : world) : world :=
  mk_world (fs w) (cwd w) (cache w) (next_id w) (session w) (events w) l.
Definition set_fs (f : gmap string file) (w : world) : world :=
  mk_world f (cwd w) (cache w) (next_id w) (session w) (events w) (page w).

(** ** The monad of script statements *)

Definition M (A : Type) : Type := world -> result A * world.

#[global] Instance M_ret : MRet M := fun A a w => (Ok a, w).
#[global] Instance M_bind : MBind M := fun A B k m w =>
  match m w with
  | (Ok a, w') => k a w'
  | (Raise e, w') => (Raise e, w')
  end.

Definition raise {A : Type} (e : exn) : M A := fun w => (Raise e, w).

(** A statement at line [n] of [app.py], in function [fn]: an exception
    that leaves it has passed that frame. *)
Definition at_line {A : Type} (n : Z) (fn : string) (m : M A) : M A :=
  fun w => let '(r, w') := m w in (framed (mk_frame n fn) r, w').

(** [try: body / except ...: handler e]; a handler re-raises what no
    clause matches. *)
Definition try_except {A : Type} (body : M A) (handler : exn -> M A) : M A :=
  fun w =>
    match body w with
    | (Ok a, w') => (Ok a, w')
    | (Raise e, w') => handler e w'
    end.

Definition log (ev : event) : M unit :=
  fun w => (Ok tt, set_events (events w ++ [ev]) w).

Definition render (el : element) : M unit :=
  fun w => (Ok tt, set_page (page w ++ [el]) w).

Definition lift {A : Type} (r : result A) : M A := fun w => (r, w).

(** The batches an object has served up to now. *)
Definition served (m : Predictor) (w : world) : list ndarray :=
  calls_to (obj_id m) (events w).

(** ** The file system, as [pathlib] and [joblib] see it *)

Definition is_absolute (p : string) : bool :=
  match p with
  | String c _ => Ascii.eqb c "/"%char
  | EmptyString => false
  end.

(** A relative path is resolved by the operating system against the
    working directory of the process. *)
Definition resolve (dir p : string) : string :=
  if is_absolute p then p else dir +:+ "/" +:+ p.

(** [Path(p).exists()] *)
Definition Path_exists (p : string) : M bool :=
  fun w =>
    let q := resolve (cwd w) p in
    (Ok (bool_decide (is_Some (fs w !! q))),
     set_events (events w ++ [EvExists q]) w).

(** [joblib.load(Path(p))]: a fresh object for a pickled model. *)
Definition joblib_load (p : string) : M Predictor :=
  fun w =>
    let q := resolve (cwd w) p in
    let w' := set_events (events w ++ [EvJoblibLoad q]) w in
    match fs w !! q with
    | Some (Pickled f) =>
        (Ok (mk_Predictor (next_id w) f), set_next_id (S (next_id w)) w')
    | Some (Unloadable e) => (Raise e, w')
    | None =>
        (Raise (mk_exn FileNotFoundError
                  ("[Errno 2] No such file or directory: '" +:+ q +:+ "'") []),
         w')
    end.

(** ** The model loader *)

(** [@st.cache_resource]: the store is keyed by the arguments that the
    call passes, before any default is filled in.  A call whose arguments
    have an entry returns the stored object and does not run the function;
    otherwise the function runs, and its value, when it returns one, is
    stored.  A call that raises stores nothing. *)
Definition cache_resource (f : option string -> M Predictor)
    (args : option string) : M Predictor :=
  fun w =>
    match cache w !! args with
    | Some m => (Ok m, w)
    | None =>
        match f args w with
        | (Ok m, w') => (Ok m, set_cache (<[args := m]> (cache w')) w')
        | (Raise e, w') => (Raise e, w')
        end
    end.

Definition default_model_path : string := "system_production_model.pkl".

(** The arguments of the page's call, [load_model()]: none. *)
Definition no_args : option string := None.

(** The value of the parameter [model_path] for the arguments of a call. *)
Definition model_path_of (args : option string) : string :=
  default default_model_path args.

Definition not_found_message (model_path : string) : string :=
  "Model file '" +:+ model_path +:+ "' not found. "
    +:+ "Make sure it is in the same folder as app.py.".

(** The body of [load_model], lines 110-117. *)
Definition load_model_body (model_path : string) : M Predictor :=
  ex ← Path_exists model_path;
  if negb ex then
    at_line 112 "load_model"
      (raise (mk_exn FileNotFoundError (not_found_message model_path) []))
  else at_line 116 "load_model" (joblib_load model_path).

(** [load_model], as decorated, applied to the arguments of a call. *)
Definition load_model : option string -> M Predictor :=
  cache_resource (fun args => load_model_body (model_path_of args)).

(** ** The input widgets *)

Record number_input_args : Type := mk_number_input {
  label : string;
  min_value : option float;
  max_value : option float;
  value : float;
  step : option float;
  format : option string
}.

Inductive field : Type :=
| DateHour | WindSpeed | Sunshine | AirPressure | Radiation
| AirTemperature | RelativeHumidity.

#[global] Instance field_eq_dec : EqDecision field.
Proof. solve_decision. Defined.

(** The arguments of the seven [st.number_input] calls, lines 175-234. *)
Definition widget (f : field) : number_input_args :=
  match f with
  | DateHour =>
      mk_number_input "Date-Hour (NMT)" None None (of_ratio 100 100) None
        (Some "%.2f")
  | WindSpeed =>
      mk_number_input "Wind Speed (m/s)" (Some (of_Z 0)) (Some (of_Z 50))
        (of_ratio 35 10) (Some (of_ratio 1 10)) None
  | Sunshine =>
      mk_number_input "Sunshine (hours)" (Some (of_Z 0)) (Some (of_Z 24))
        (of_Z 6) (Some (of_ratio 1 10)) None
  | AirPressure =>
      mk_number_input "Air Pressure (hPa)" (Some (of_Z 800)) (Some (of_Z 1100))
        (of_Z 1013) (Some (of_ratio 5 10)) None
  | Radiation =>
      mk_number_input "Radiation (W/m²)" (Some (of_Z 0)) (Some (of_Z 1500))
        (of_Z 650) (Some (of_Z 1)) None
  | AirTemperature =>
      mk_number_input "Air Temperature (°C)" (Some (of_Z (-20)))
        (Some (of_Z 60)) (of_Z 28) (Some (of_ratio 1 10)) None
  | RelativeHumidity =>
      mk_number_input "Relative Air Humidity (%)" (Some (of_Z 0))
        (Some (of_Z 100)) (of_Z 45) (Some (of_ratio 5 10)) None
  end.

(** [st.number_input(...)] returns the value committed for the widget in
    this session, and the [value] argument before any was. *)
Definition number_input (a : number_input_args) : M float :=
  fun w => (Ok (default (value a) (session w !! label a)), w).

(** The number widget of the browser refuses to commit an entry [v] with
    [min > v || v > max], where a bound that was not given is the infinity
    of its side: the session keeps the value it had.  A number field of the
    browser holds finite numbers only. *)
Definition out_of_range (a : number_input_args) (v : float) : bool :=
  ltb v (default neg_infinity (min_value a))
    || ltb (default infinity (max_value a)) v.

Definition commit (a : number_input_args) (v : float) (w : world) : world :=
  if negb (is_finite v) || out_of_range a v then w
  else set_session (<[label a := v]> (session w)) w.

Record inputs : Type := mk_inputs {
  date_hour : float;
  wind_speed : float;
  sunshine : float;
  air_pressure : float;
  radiation : float;
  air_temperature : float;
  relative_humidity : float
}.

Definition input_column : M inputs :=
  date_hour ← number_input (widget DateHour);
  wind_speed ← number_input (widget WindSpeed);
  sunshine ← number_input (widget Sunshine);
  air_pressure ← number_input (widget AirPressure);
  radiation ← number_input (widget Radiation);
  air_temperature ← number_input (widget AirTemperature);
  relative_humidity ← number_input (widget RelativeHumidity);
  mret (mk_inputs date_hour wind_speed sunshine air_pressure radiation
          air_temperature relative_humidity).

(** ** The output column, lines 244-288 *)

Definition dq : string := String (ascii_of_nat 34) EmptyString.

Definition card_open : string :=
  "<div class=" +:+ dq +:+ "glass-card" +:+ dq +:+ ">".
Definition output_title : string :=
  "<div class=" +:+ dq +:+ "section-title" +:+ dq +:+ ">Prediction Output</div>".
Definition card_close : string := "</div>".

Definition metric_label : string := "Predicted System / Solar Energy".
Definition failure_message : string :=
  "🚨 An error occurred while generating prediction.".
Definition idle_message : string :=
  "Click **Predict Solar Energy** after entering all inputs.".
Definition success_message (date_hour : float) : string :=
  "✅ Prediction generated successfully for Date-Hour (NMT): **"
    +:+ format_2f date_hour +:+ "**".
Definition expander_label : string := "View raw input vector".

(** [np.array([[...]])] of a nested list of floats. *)
Definition np_array (rows : list (list float)) : ndarray := Array2 rows.

(** [model.predict(features)] *)
Definition call_predict (model : Predictor) (features : ndarray) : M ndarray :=
  fun w =>
    (predict model (served model w) features,
     set_events (events w ++ [EvPredict (obj_id model) features]) w).

(** [with st.expander(label, expanded): body]: what [body] renders becomes
    the content of the expander, also when [body] raises. *)
Definition with_expander {A : Type} (lbl : string) (expanded : bool)
    (body : M A) : M A :=
  fun w =>
    let '(r, w') := body (set_page [] w) in
    (r, set_page (page w ++ [Expander lbl expanded (page w')]) w').

(** Lines 253-278, the body of [try]. *)
Definition predict_and_show (i : inputs) : M unit :=
  model ← at_line 253 "<module>" (load_model no_args);
  let features :=
    np_array [[date_hour i; wind_speed i; sunshine i; air_pressure i;
               radiation i; air_temperature i; relative_humidity i]] in
  prediction ← at_line 265 "<module>"
                 (out ← call_predict model features; lift (item out));
  render (Metric metric_label (format_comma_2f prediction));;
  render (Success (success_message (date_hour i)));;
  with_expander expander_label false (render (Write features)).

(** Lines 280-284, the two [except] clauses, tried in order. *)
Definition on_error (e : exn) : M unit :=
  if is_FileNotFoundError e then render (Error (str e))
  else if is_Exception e then
    render (Error failure_message);;
    render (ExceptionBox e)
  else raise e.

Definition output_column (predict_clicked : bool) (i : inputs) : M unit :=
  render (Markdown card_open);;
  render (Markdown output_title);;
  (if predict_clicked then try_except (predict_and_show i) on_error
   else render (Info idle_message));;
  render (Markdown card_close).

(** ** The process: reruns of the script between user actions *)

(** One run of the script: the widgets are read, then the output column is
    rendered anew. *)
Definition script (predict_clicked : bool) : M unit :=
  i ← input_column;
  output_column predict_clicked i.

Definition rerun (predict_clicked : bool) (w : world) : world :=
  snd (script predict_clicked (set_page [] w)).

(** What happens to the process: the user enters a number in a field, the
    user presses the button, or the file system changes under it. *)
Inductive action : Type :=
| Enter (f : field) (v : float)
| Click
| FsPut (abs_path : string) (content : file)
| FsRemove (abs_path : string).

Definition react (w : world) (a : action) : world :=
  match a with
  | Enter f v => rerun false (commit (widget f) v w)
  | Click => rerun true w
  | FsPut p c => set_fs (<[p := c]> (fs w)) w
  | FsRemove p => set_fs (delete p (fs w)) w
  end.

Definition run (w : world) (acts : list action) : world := fold_left react acts w.

(** A process that has just started in directory [dir] on file system [f]. *)
Definition start (f : gmap string file) (dir : string) : world :=
  mk_world f dir ∅ 0 ∅ [] [].

(** The widgets as one run reads them. *)
Definition read (w : world) (f : field) : float :=
  default (value (widget f)) (session w !! label (widget f)).

Definition read_inputs (w : world) : inputs :=
  mk_inputs (read w DateHour) (read w WindSpeed) (read w Sunshine)
    (read w AirPressure) (read w Radiation) (read w AirTemperature)
    (read w RelativeHumidity).

(** The feature matrix of line 254 for the current widget values. *)
Definition features_of (i : inputs) : ndarray :=
  np_array [[date_hour i; wind_speed i; sunshine i; air_pressure i;
             radiation i; air_temperature i; relative_humidity i]].

(** ** Notions used in the statements *)

(** The four ways a call of the loader can go. *)
Inductive load_case (w : world) (args : option string) : Prop :=
| LoadHit (m : Predictor) (_ : cache w !! args = Some m)
| LoadMissing (_ : cache w !! args = None)
    (_ : fs w !! resolve (cwd w) (model_path_of args) = None)
| LoadPickled (f : list ndarray -> ndarray -> result ndarray)
    (_ : cache w !! args = None)
    (_ : fs w !! resolve (cwd w) (model_path_of args) = Some (Pickled f))
| LoadUnloadable (e : exn)
    (_ : cache w !! args = None)
    (_ : fs w !! resolve (cwd w) (model_path_of args) = Some (Unloadable e)).

(** What the two [except] clauses render for an exception, and whether the
    closing markup of the card is still reached. *)
Definition error_elements (e : exn) : list element :=
  if is_FileNotFoundError e then [Error (str e); Markdown card_close]
  else if is_Exception e then
    [Error failure_message; ExceptionBox e; Markdown card_close]
  else [].

Definition success_elements (i : inputs) (prediction : float) : list element :=
  [Metric metric_label (format_comma_2f prediction);
   Success (success_message (date_hour i));
   Expander expander_label false [Write (features_of i)];
   Markdown card_close].

(** The frames of the two statements of the [try] block that can raise,
    and of the two of [load_model]. *)
Definition line_253 : frame := mk_frame 253 "<module>".
Definition line_265 : frame := mk_frame 265 "<module>".
Definition line_112 : frame := mk_frame 112 "load_model".
Definition line_116 : frame := mk_frame 116 "load_model".

(** The result of the three calls of the [try] block that can raise, as
    the handlers receive it. *)
Definition inference (i : inputs) (w : world) : result float :=
  match fst (load_model no_args w) with
  | Raise e => Raise (in_frame line_253 e)
  | Ok model =>
      framed line_265
        match predict model (served model w) (features_of i) with
        | Raise e => Raise e
        | Ok out => item out
        end
  end.

Definition expected_page (i : inputs) (w : world) : list element :=
  [Markdown card_open; Markdown output_title]
    ++ match inference i w with
       | Ok prediction => success_elements i prediction
       | Raise e => error_elements e
       end.

Definition inference_events (i : inputs) (w : world) : list event :=
  match fst (load_model no_args w) with
  | Raise _ => []
  | Ok model => [EvPredict (obj_id model) (features_of i)]
  end.

(** The stack traces that a page puts before the user as it is rendered:
    those of the [st.exception] boxes that stand in the column itself or in
    an expander that is open.  [traces_in_collapsed] are those that an
    expander holds back until the user opens it. *)
Definition box_trace (el : element) : list (list frame) :=
  match el with
  | ExceptionBox e => [traceback e]
  | _ => []
  end.

Definition traces_shown_directly (pg : list element) : list (list frame) :=
  flat_map
    (fun el =>
       match el with
       | Expander _ true children => flat_map box_trace children
       | _ => box_trace el
       end) pg.

Definition traces_in_collapsed (pg : list element) : list (list frame) :=
  flat_map
    (fun el =>
       match el with
       | Expander _ false children => flat_map box_trace children
       | _ => []
       end) pg.


(** A call of the loader extends the history by at most the existence check
    and the load, both at the resolved path. *)
Definition load_trace (args : option string) (w : world) : list event :=
  let q := resolve (cwd w) (model_path_of args) in
  match cache w !! args with
  | Some _ => []
  | None =>
      match fs w !! q with
      | None => [EvExists q]
      | Some _ => [EvExists q; EvJoblibLoad q]
      end
  end.

(** The process creates at most one model object: the object counter is 1
    when the cache holds the model of the page and 0 before. *)
Definition one_object (w : world) : Prop :=
  next_id w = match cache w !! no_args with
              | Some _ => 1
              | None => 0
              end.

Definition all_fields : list field :=
  [DateHour; WindSpeed; Sunshine; AirPressure; Radiation; AirTemperature;
   RelativeHumidity].

Definition acceptable (f : field) (v : float) : bool :=
  is_finite v && negb (out_of_range (widget f) v).

Definition session_ok (w : world) : Prop :=
  forall f : field, acceptable f (read w f) = true.

(** What stands before the point: digits, commas, a sign. *)
Definition integral_char (c : ascii) : bool :=
  is_digit c || Ascii.eqb c ","%char || Ascii.eqb c "-"%char.

(** The integral part, read from the right: a digit first, and no point
    anywhere. *)
Definition integral_rev_ok (r : list ascii) : Prop :=
  exists d0 rest, r = d0 :: rest /\ is_digit d0 = true
                  /\ forallb integral_char rest = true.

(** ** Concrete processes used as instances *)

Module Sample.

Definition artifact_path : string := "/app/system_production_model.pkl".

(** A regressor that answers 1234567.891 for every row. *)
Definition constant_model (_ : list ndarray) (_ : ndarray) : result ndarray :=
  Ok (Array1 [of_ratio 1234567891 1000]).

(** A regressor whose output is not a number. *)
Definition nan_model (_ : list ndarray) (_ : ndarray) : result ndarray := Ok (Array1 [nan]).

(** A two-target regressor: two values per row. *)
Definition two_target_model (_ : list ndarray) (_ : ndarray) : result ndarray :=
  Ok (Array2 [[of_Z 1; of_Z 2]]).

(** A model that insists on eight features. *)
Definition shape_error : exn :=
  mk_exn ValueError "X has 7 features, but LinearRegression is expecting 8 features as input." [].
Definition picky_model (_ : list ndarray) (_ : ndarray) : result ndarray := Raise shape_error.

(** A model that opens a side file at inference time. *)
Definition side_file_error : exn :=
  mk_exn FileNotFoundError "[Errno 2] No such file or directory: 'scaler.pkl'" [].
Definition lazy_model (_ : list ndarray) (_ : ndarray) : result ndarray := Raise side_file_error.

(** A model whose inference is interrupted from the keyboard. *)
Definition interrupt : exn :=
  mk_exn (NonException "KeyboardInterrupt") EmptyString [].
Definition interrupted_model (_ : list ndarray) (_ : ndarray) : result ndarray :=
  Raise interrupt.


Definition truncated : exn :=
  mk_exn (OtherException "EOFError") "Ran out of input" [].

Definition disk (c : file) : gmap string file := {[ artifact_path := c ]}.

(** Processes started in the folder of the artifact. *)
Definition fresh (predict_method : list ndarray -> ndarray -> result ndarray)
  : world :=
  start (disk (Pickled predict_method)) "/app".

(** A process started elsewhere, the artifact lying next to [app.py]. *)
Definition elsewhere : world := start (disk (Pickled constant_model)) "/srv".

Definition corrupt : world := start (disk (Unloadable truncated)) "/app".

(** A process that has predicted once and then lost its artifact. *)
Definition orphaned : world :=
  run (fresh constant_model) [Click; FsRemove artifact_path].

End Sample.

Definition predict_calls (l : list event) : list ndarray :=
  flat_map (fun ev => match ev with EvPredict _ x => [x] | _ => [] end) l.

Definition available (w : world) : bool :=
  match fst (load_model no_args w) with
  | Ok _ => true
  | Raise _ => false
  end.

(** The bounds of the seven fields as the specification tabulates them. *)
Definition spec_bounds (f : field) : option Z * option Z :=
  match f with
  | DateHour => (None, None)
  | WindSpeed => (Some 0, Some 50)
  | Sunshine => (Some 0, Some 24)
  | AirPressure => (Some 800, Some 1100)
  | Radiation => (Some 0, Some 1500)
  | AirTemperature => (Some (-20), Some 60)
  | RelativeHumidity => (Some 0, Some 100)
  end%Z.

(** [v] is strictly below the tabulated minimum of [f] or strictly above
    its tabulated maximum. *)
Definition violates (f : field) (v : float) : bool :=
  match fst (spec_bounds f) with
  | Some lo => ltb v (of_Z lo)
  | None => false
  end
  || match snd (spec_bounds f) with
     | Some hi => ltb (of_Z hi) v
     | None => false
     end.

(** ** Notions used in the further properties *)

Definition is_click (a : action) : bool :=
  match a with Click => true | _ => false end.

Definition is_enter (a : action) : bool :=
  match a with Enter _ _ => true | _ => false end.

Definition is_metric (el : element) : bool :=
  match el with Metric _ _ => true | _ => false end.

Definition is_success (el : element) : bool :=
  match el with Success _ => true | _ => false end.

Definition is_error (el : element) : bool :=
  match el with Error _ => true | _ => false end.

(** The position of a field in the feature vector of line 254. *)
Definition field_index (f : field) : nat :=
  match f with
  | DateHour => 0
  | WindSpeed => 1
  | Sunshine => 2
  | AirPressure => 3
  | Radiation => 4
  | AirTemperature => 5
  | RelativeHumidity => 6
  end.

(** The identities of the objects whose [predict] a history has called. *)
Definition predict_ids (l : list event) : list nat :=
  flat_map (fun ev => match ev with EvPredict id _ => [id] | _ => [] end) l.

(** All inference calls so far went to object 0, which is the cached one
    if any object exists. *)
Definition single_object (w : world) : Prop :=
  Forall (fun id => id = 0) (predict_ids (events w))
  /\ match cache w !! no_args with
     | Some m => obj_id m = 0 /\ next_id w = 1
     | None => next_id w = 0
     end.

(** The paths a history has passed to [joblib.load]. *)
Definition loads (l : list event) : list string :=
  flat_map (fun ev => match ev with EvJoblibLoad q => [q] | _ => [] end) l.

(** Reading a displayed number back: the sign, and the number of
    hundredths that the digits denote once the commas are dropped.  A text
    that is not of that form denotes nothing. *)
Definition is_comma (c : ascii) : bool := Ascii.eqb c ","%char.

Definition ungroup (l : list ascii) : list ascii :=
  List.filter (fun c => negb (is_comma c)) l.

Definition digit_value (c : ascii) : Z := (Z.of_nat (nat_of_ascii c) - 48)%Z.

Definition digits_value (l : list ascii) : Z :=
  fold_left (fun acc c => (10 * acc + digit_value c)%Z) l 0%Z.

Definition read_unsigned2 (l : list ascii) : option Z :=
  match rev (ungroup l) with
  | d2 :: d1 :: p :: d0 :: rest =>
      if Ascii.eqb p "."%char && forallb is_digit (d2 :: d1 :: d0 :: rest)
      then Some (100 * digits_value (rev (d0 :: rest))
                 + 10 * digit_value d1 + digit_value d2)%Z
      else None
  | _ => None
  end.

Definition read_fixed2_chars (l : list ascii) : option (bool * Z) :=
  match l with
  | c :: body =>
      if Ascii.eqb c "-"%char then pair true <$> read_unsigned2 body
      else pair false <$> read_unsigned2 l
  | [] => None
  end.

Definition read_fixed2 (s : string) : option (bool * Z) :=
  read_fixed2_chars (list_ascii_of_string s).

(** The sign of a finite float and its absolute value in hundredths,
    rounded to nearest, ties to even. *)
Definition hundredths_of (x : float) : option (bool * Z) :=
  match x with
  | S754_zero s => Some (s, 0%Z)
  | S754_finite s m e => Some (s, hundredths m e)
  | S754_infinity _ | S754_nan => None
  end.

Definition digit_or_comma (c : ascii) : bool := is_digit c || is_comma c.

(** * Properties *)

(** ** Equations of the script *)

(** The class and the text of an exception do not change as it passes a
    frame. *)
Ltac unframe :=
  repeat match goal with
         | |- context [is_FileNotFoundError (in_frame ?f ?e)] =>
             change (is_FileNotFoundError (in_frame f e))
               with (is_FileNotFoundError e)
         | |- context [is_Exception (in_frame ?f ?e)] =>
             change (is_Exception (in_frame f e)) with (is_Exception e)
         | |- context [str (in_frame ?f ?e)] =>
             change (str (in_frame f e)) with (str e)
         end.

Ltac unfold_M :=
  unfold mbind, M_bind, mret, M_ret, raise, lift, log, render, try_except in *.

Lemma input_column_eq (w : world) : input_column w = (Ok (read_inputs w), w).
Proof. reflexivity. Qed.

Lemma script_eq (b : bool) (w : world) :
  script b w = output_column b (read_inputs w) w.
Proof. reflexivity. Qed.

Section LoadModel.

Variables (w : world) (a : option string).

Let q : string := resolve (cwd w) (model_path_of a).

Lemma load_model_hit (m : Predictor) :
  cache w !! a = Some m -> load_model a w = (Ok m, w).
Proof. intros H. unfold load_model, cache_resource. now rewrite H. Qed.

Lemma load_model_missing :
  cache w !! a = None -> fs w !! q = None ->
  load_model a w =
    (Raise (mk_exn FileNotFoundError (not_found_message (model_path_of a))
              [line_112]),
     set_events (events w ++ [EvExists q]) w).
Proof.
  intros Hc Hf.
  unfold load_model, cache_resource, load_model_body, Path_exists, at_line.
  unfold_M. rewrite Hc. fold q. rewrite Hf.
  rewrite bool_decide_eq_false_2; [reflexivity | ].
  intros [x Hx]. discriminate.
Qed.

Lemma load_model_pickled (f : list ndarray -> ndarray -> result ndarray) :
  cache w !! a = None -> fs w !! q = Some (Pickled f) ->
  load_model a w =
    (Ok (mk_Predictor (next_id w) f),
     mk_world (fs w) (cwd w) (<[a := mk_Predictor (next_id w) f]> (cache w))
       (S (next_id w)) (session w)
       ((events w ++ [EvExists q]) ++ [EvJoblibLoad q]) (page w)).
Proof.
  intros Hc Hf.
  unfold load_model, cache_resource, load_model_body, Path_exists, joblib_load,
    at_line.
  unfold_M. rewrite Hc. fold q. rewrite Hf.
  rewrite bool_decide_eq_true_2 by eauto.
  cbn. fold q. now rewrite Hf.
Qed.

Lemma load_model_unloadable (e : exn) :
  cache w !! a = None -> fs w !! q = Some (Unloadable e) ->
  load_model a w =
    (Raise (in_frame line_116 e),
     set_events ((events w ++ [EvExists q]) ++ [EvJoblibLoad q]) w).
Proof.
  intros Hc Hf.
  unfold load_model, cache_resource, load_model_body, Path_exists, joblib_load,
    at_line.
  unfold_M. rewrite Hc. fold q. rewrite Hf.
  rewrite bool_decide_eq_true_2 by eauto.
  cbn. fold q. now rewrite Hf.
Qed.

Lemma load_cases : load_case w a.
Proof.
  destruct (cache w !! a) as [m|] eqn:Hc; [eapply LoadHit; eauto|].
  destruct (fs w !! q) as [[f|e]|] eqn:Hf.
  - eapply LoadPickled; eauto.
  - eapply LoadUnloadable; eauto.
  - eapply LoadMissing; eauto.
Qed.

End LoadModel.

Ltac load_cases w p :=
  destruct (load_cases w p) as [?m ?Hc | ?Hc ?Hf | ?f ?Hc ?Hf | ?e ?Hc ?Hf];
  [ rewrite (load_model_hit w p _ Hc) in *
  | rewrite (load_model_missing w p Hc Hf) in *
  | rewrite (load_model_pickled w p _ Hc Hf) in *
  | rewrite (load_model_unloadable w p _ Hc Hf) in * ].

(** A call reads and writes neither the page nor the session, and leaves
    the file system as it is. *)
Lemma load_model_page (a : option string) (l : list element) (w : world) :
  load_model a (set_page l w) =
    (fst (load_model a w), set_page l (snd (load_model a w))).
Proof.
  destruct (load_cases w a) as [m Hc | Hc Hf | f Hc Hf | e Hc Hf].
  - rewrite (load_model_hit w a _ Hc), (load_model_hit (set_page l w) a m Hc).
    reflexivity.
  - rewrite (load_model_missing w a Hc Hf),
      (load_model_missing (set_page l w) a Hc Hf). reflexivity.
  - rewrite (load_model_pickled w a _ Hc Hf),
      (load_model_pickled (set_page l w) a _ Hc Hf). reflexivity.
  - rewrite (load_model_unloadable w a _ Hc Hf),
      (load_model_unloadable (set_page l w) a _ Hc Hf). reflexivity.
Qed.

Lemma load_model_frame (a : option string) (w : world) :
  let w1 := snd (load_model a w) in
  fs w1 = fs w /\ cwd w1 = cwd w /\ session w1 = session w /\ page w1 = page w.
Proof. load_cases w a; cbn; auto. Qed.


(** ** One run after a click, in closed form *)

Lemma load_model_events (a : option string) (w : world) :
  events (snd (load_model a w)) = events w ++ load_trace a w.
Proof.
  unfold load_trace.
  load_cases w a; cbn; rewrite ?Hc, ?Hf, ?app_nil_r, <- ?app_assoc; reflexivity.
Qed.

Lemma calls_to_app (id : nat) (l1 l2 : list event) :
  calls_to id (l1 ++ l2) = calls_to id l1 ++ calls_to id l2.
Proof. apply flat_map_app. Qed.

Lemma calls_to_load_trace (id : nat) (a : option string) (w : world) :
  calls_to id (load_trace a w) = [].
Proof.
  unfold load_trace. destruct (cache w !! a); [reflexivity|].
  destruct (fs w !! resolve (cwd w) (model_path_of a)); reflexivity.
Qed.

(** Loading sends nothing to any object. *)
Lemma served_load_model (m : Predictor) (a : option string) (w : world) :
  served m (snd (load_model a w)) = served m w.
Proof.
  unfold served. rewrite load_model_events, calls_to_app, calls_to_load_trace.
  apply app_nil_r.
Qed.

Lemma predict_and_show_eq (i : inputs) (w : world) :
  predict_and_show i w =
    match load_model no_args w with
    | (Raise e, w1) => (Raise (in_frame line_253 e), w1)
    | (Ok model, w1) =>
        let w2 :=
          set_events
            (events w1 ++ [EvPredict (obj_id model) (features_of i)]) w1 in
        match predict model (served model w1) (features_of i) with
        | Raise e => (Raise (in_frame line_265 e), w2)
        | Ok out =>
            match item out with
            | Raise e => (Raise (in_frame line_265 e), w2)
            | Ok prediction =>
                (Ok tt,
                 set_page
                   (page w2
                      ++ [Metric metric_label (format_comma_2f prediction);
                          Success (success_message (date_hour i));
                          Expander expander_label false [Write (features_of i)]])
                   w2)
            end
        end
    end.
Proof.
  unfold predict_and_show, call_predict, with_expander, at_line. unfold_M.
  destruct (load_model no_args w) as [[model|e] w1]; [|reflexivity].
  cbn. fold (features_of i).
  destruct (predict model (served model w1) (features_of i)) as [out|e];
    [|reflexivity].
  destruct (item out) as [x|e]; [|reflexivity].
  destruct w1; cbn. rewrite <- !app_assoc. reflexivity.
Qed.

Lemma on_error_eq (e : exn) (w : world) :
  on_error e w =
    if is_FileNotFoundError e then (Ok tt, set_page (page w ++ [Error (str e)]) w)
    else if is_Exception e then
      (Ok tt, set_page (page w ++ [Error failure_message; ExceptionBox e]) w)
    else (Raise e, w).
Proof.
  unfold on_error. unfold_M.
  destruct (is_FileNotFoundError e); [reflexivity|].
  destruct (is_Exception e); [|reflexivity].
  destruct w; cbn. rewrite <- app_assoc. reflexivity.
Qed.

Lemma output_column_click (i : inputs) (w : world) :
  let w1 := snd (load_model no_args w) in
  snd (output_column true i w) =
    mk_world (fs w) (cwd w) (cache w1) (next_id w1) (session w)
      (events w1 ++ inference_events i w) (page w ++ expected_page i w).
Proof.
  pose proof (load_model_frame no_args w) as (Hfs & Hcwd & Hs & Hp).
  pose proof (fun m => served_load_model m no_args w) as Hsv.
  unfold expected_page, inference, inference_events, output_column.
  unfold mbind, M_bind, render at 1 2, try_except.
  rewrite predict_and_show_eq.
  change (set_page (page (set_page (page w ++ [Markdown card_open]) w)
                      ++ [Markdown output_title])
            (set_page (page w ++ [Markdown card_open]) w))
    with (set_page ((page w ++ [Markdown card_open]) ++ [Markdown output_title]) w).
  rewrite load_model_page.
  destruct (load_model no_args w) as [[m|e] w1].
  all: cbn [fst snd] in *.
  - change (served m (set_page ((page w ++ [Markdown card_open])
                                  ++ [Markdown output_title]) w1))
      with (served m w1).
    rewrite Hsv.
    destruct (predict m (served m w) (features_of i)) as [out|e];
      [destruct (item out) as [x|e]|]; cbn [framed].
    all: rewrite ?on_error_eq.
    all: unfold success_elements, error_elements, render.
    all: try (change (is_FileNotFoundError (in_frame line_265 e))
                with (is_FileNotFoundError e);
              change (is_Exception (in_frame line_265 e))
                with (is_Exception e);
              destruct (is_FileNotFoundError e); [|destruct (is_Exception e)]).
    all: destruct w1; cbn in *; subst.
    all: rewrite ?app_nil_r, <- ?app_assoc; reflexivity.
  - rewrite on_error_eq. unfold error_elements, render.
    change (is_FileNotFoundError (in_frame line_253 e))
      with (is_FileNotFoundError e).
    change (is_Exception (in_frame line_253 e)) with (is_Exception e).
    destruct (is_FileNotFoundError e); [|destruct (is_Exception e)].
    all: destruct w1; cbn in *; subst.
    all: rewrite ?app_nil_r, <- ?app_assoc; reflexivity.
Qed.

Lemma click_world (w : world) :
  let w1 := snd (load_model no_args w) in
  let i := read_inputs w in
  rerun true w =
    mk_world (fs w) (cwd w) (cache w1) (next_id w1) (session w)
      (events w1 ++ inference_events i w) (expected_page i w).
Proof.
  cbn zeta. unfold rerun. rewrite script_eq, output_column_click.
  change (read_inputs (set_page [] w)) with (read_inputs w).
  unfold expected_page, inference, inference_events.
  rewrite load_model_page. reflexivity.
Qed.

Lemma idle_world (w : world) :
  rerun false w =
    set_page [Markdown card_open; Markdown output_title; Info idle_message;
              Markdown card_close] w.
Proof. reflexivity. Qed.

(** ** The process keeps what it has cached *)

Lemma load_model_keeps (a a' : option string) (m : Predictor) (w : world) :
  cache w !! a' = Some m -> cache (snd (load_model a w)) !! a' = Some m.
Proof.
  intros H. load_cases w a; cbn; auto.
  destruct (decide (a = a')) as [->|Hne]; [congruence|].
  now rewrite lookup_insert_ne.
Qed.

Lemma load_model_stores (a : option string) (m : Predictor) (w : world) :
  fst (load_model a w) = Ok m -> cache (snd (load_model a w)) !! a = Some m.
Proof.
  load_cases w a; cbn; intros H; try discriminate.
  - congruence.
  - injection H as <-. apply lookup_insert_eq.
Qed.

Lemma react_keeps (k : option string) (m : Predictor) (w : world) (a : action) :
  cache w !! k = Some m -> cache (react w a) !! k = Some m.
Proof.
  intros H. destruct a as [f v| | |]; cbn [react].
  - rewrite idle_world. unfold commit.
    destruct (negb (is_finite v) || out_of_range (widget f) v); exact H.
  - rewrite click_world. cbn. now apply load_model_keeps.
  - exact H.
  - exact H.
Qed.

Lemma run_keeps (k : option string) (m : Predictor) (acts : list action) (w : world) :
  cache w !! k = Some m -> cache (run w acts) !! k = Some m.
Proof.
  revert w. induction acts as [|a acts IH]; intros w H; [exact H|].
  cbn. apply IH. now apply react_keeps.
Qed.

Lemma react_one_object (w : world) (a : action) :
  one_object w -> one_object (react w a).
Proof.
  unfold one_object. intros H. destruct a as [f v| | |]; cbn [react].
  - rewrite idle_world. unfold commit.
    destruct (negb (is_finite v) || out_of_range (widget f) v); exact H.
  - rewrite click_world. cbn [next_id cache].
    load_cases w no_args; cbn [snd next_id cache set_events];
      rewrite ?lookup_insert_eq; rewrite ?Hc in *; auto.
  - exact H.
  - exact H.
Qed.

Lemma run_one_object (f0 : gmap string file) (dir : string) (acts : list action) :
  next_id (run (start f0 dir) acts) <= 1.
Proof.
  assert (one_object (run (start f0 dir) acts)) as H.
  { assert (one_object (start f0 dir)) as H0 by reflexivity.
    revert H0. generalize (start f0 dir).
    induction acts as [|a acts IH]; intros w Hw; [exact Hw|].
    cbn. apply IH. now apply react_one_object. }
  unfold one_object in H. rewrite H.
  destruct (cache _ !! no_args); lia.
Qed.

(** ** The session holds finite values within the bounds of their widget *)

Example widget_constants_binary64 :
  forallb
    (fun f =>
       is_binary64 (value (widget f))
         && is_binary64 (default neg_infinity (min_value (widget f)))
         && is_binary64 (default infinity (max_value (widget f))))
    all_fields = true.
Proof. vm_compute. reflexivity. Qed.

Lemma label_inj (f g : field) : label (widget f) = label (widget g) -> f = g.
Proof. destruct f, g; cbn; intros H; try reflexivity; discriminate H. Qed.

Lemma default_acceptable (f : field) : acceptable f (value (widget f)) = true.
Proof. destruct f; vm_compute; reflexivity. Qed.

Lemma start_ok (f0 : gmap string file) (dir : string) : session_ok (start f0 dir).
Proof.
  intros f. unfold read, start. cbn. rewrite lookup_empty. cbn.
  apply default_acceptable.
Qed.

Lemma rerun_session (b : bool) (w : world) : session (rerun b w) = session w.
Proof. destruct b; [rewrite click_world | rewrite idle_world]; reflexivity. Qed.

Lemma read_rerun (b : bool) (w : world) (f : field) :
  read (rerun b w) f = read w f.
Proof. unfold read. now rewrite rerun_session. Qed.

Lemma commit_ok (f : field) (v : float) (w : world) :
  session_ok w -> session_ok (commit (widget f) v w).
Proof.
  intros H g. unfold commit.
  destruct (negb (is_finite v) || out_of_range (widget f) v) eqn:E; [apply H|].
  apply orb_false_iff in E as [Hfin Hout]. apply negb_false_iff in Hfin.
  unfold read. cbn.
  destruct (decide (f = g)) as [<-|Hne].
  - rewrite lookup_insert_eq. cbn. unfold acceptable. now rewrite Hfin, Hout.
  - rewrite lookup_insert_ne by (intros E; apply Hne, label_inj, E). apply H.
Qed.

Lemma react_ok (w : world) (a : action) : session_ok w -> session_ok (react w a).
Proof.
  intros H. destruct a as [f v| | |]; cbn [react].
  - intros g. rewrite read_rerun. now apply commit_ok.
  - intros g. rewrite read_rerun. apply H.
  - exact H.
  - exact H.
Qed.

Lemma run_ok (acts : list action) (w : world) :
  session_ok w -> session_ok (run w acts).
Proof.
  revert w. induction acts as [|a acts IH]; intros w H; [exact H|].
  cbn. apply IH. now apply react_ok.
Qed.

(** ** Two decimals for every finite number *)

Module FormatFacts.

Local Open Scope Z_scope.

Lemma integral_not_point (l : list ascii) :
  forallb integral_char l = true -> forallb not_point l = true.
Proof.
  induction l as [|c l IH]; cbn; [reflexivity|].
  intros [Hc Hl]%andb_true_iff. rewrite (IH Hl), andb_true_r.
  unfold not_point. destruct (Ascii.eqb_spec c "."%char) as [->|]; [|reflexivity].
  discriminate Hc.
Qed.

Lemma digit_integral (l : list ascii) :
  forallb is_digit l = true -> forallb integral_char l = true.
Proof.
  induction l as [|c l IH]; cbn; [reflexivity|].
  intros [Hc Hl]%andb_true_iff. unfold integral_char at 1.
  now rewrite Hc, (IH Hl).
Qed.

Lemma digit_char_is_digit (d : Z) : 0 <= d < 10 -> is_digit (digit_char d) = true.
Proof.
  intros H.
  assert (d = 0 \/ d = 1 \/ d = 2 \/ d = 3 \/ d = 4 \/ d = 5 \/ d = 6
          \/ d = 7 \/ d = 8 \/ d = 9) as Hd by lia.
  repeat destruct Hd as [->|Hd]; try reflexivity. now subst.
Qed.

Lemma uint_digits_all (u : Decimal.uint) : forallb is_digit (uint_digits u) = true.
Proof. induction u; cbn; auto. Qed.

Lemma uint_digits_nonnil (u : Decimal.uint) : u <> Decimal.Nil -> uint_digits u <> [].
Proof. destruct u; cbn; congruence. Qed.

Lemma digits_all (n : Z) : forallb is_digit (digits n) = true.
Proof. apply uint_digits_all. Qed.

Lemma digits_nonnil (n : Z) : digits n <> [].
Proof.
  unfold digits. apply uint_digits_nonnil.
  destruct (Z.to_N n); cbn; [discriminate|apply Unsigned.to_uint_nonnil].
Qed.

(** Grouping keeps the first (least significant) digit in place and adds
    commas only. *)
Lemma group3_rev_spec (n : nat) (ds : list ascii) :
  (length ds <= n)%nat ->
  forallb is_digit ds = true ->
  hd_error (group3_rev ds) = hd_error ds
  /\ forallb integral_char (group3_rev ds) = true.
Proof.
  revert ds. induction n as [|n IH]; intros ds Hlen Hd.
  - destruct ds; [|cbn in Hlen; lia]. now cbn.
  - destruct ds as [|a [|b [|c [|d rest]]]];
      try (split; [reflexivity | now apply digit_integral]).
    change (group3_rev (a :: b :: c :: d :: rest))
      with (a :: b :: c :: ","%char :: group3_rev (d :: rest)).
    split; [reflexivity|].
    cbn [forallb] in Hd. apply andb_true_iff in Hd as [Ha Hd].
    apply andb_true_iff in Hd as [Hb Hd].
    apply andb_true_iff in Hd as [Hc Hd].
    destruct (IH (d :: rest)) as [_ Hr]; [cbn in *; lia | exact Hd |].
    cbn [forallb]. unfold integral_char at 1 2 3 4.
    now rewrite Ha, Hb, Hc, Hr.
Qed.

Lemma digits_rev_ok (n : Z) : integral_rev_ok (rev (digits n)).
Proof.
  pose proof (digits_nonnil n) as Hn. pose proof (digits_all n) as Ha.
  assert (forallb is_digit (rev (digits n)) = true) as Hr.
  { apply forallb_forall. intros c Hc%in_rev.
    eapply forallb_forall in Ha; eauto. }
  destruct (rev (digits n)) as [|d0 rest] eqn:E.
  - apply (f_equal (@rev ascii)) in E. rewrite rev_involutive in E. now cbn in E.
  - cbn in Hr. apply andb_true_iff in Hr as [H0 Hrest].
    exists d0, rest. auto using digit_integral.
Qed.

Lemma group3_rev_ok (n : Z) : integral_rev_ok (rev (group3 (digits n))).
Proof.
  unfold group3. rewrite rev_involutive.
  destruct (digits_rev_ok n) as (d0 & rest & E & H0 & Hrest).
  assert (forallb is_digit (rev (digits n)) = true) as Hr.
  { pose proof (digits_all n) as Ha.
    apply forallb_forall. intros c Hc%in_rev.
    eapply forallb_forall in Ha; eauto. }
  destruct (group3_rev_spec _ _ (Nat.le_refl _) Hr) as [Hhd Hall].
  rewrite E in Hhd, Hall |- *. 
  destruct (group3_rev (d0 :: rest)) as [|d0' rest'] eqn:E'; [discriminate|].
  injection Hhd as ->. cbn in Hall. apply andb_true_iff in Hall as [_ Hall].
  exists d0, rest'. auto.
Qed.

(** The rounding of [.2f] is to a nearest integer of hundredths. *)
Lemma round_half_even_nearest (n d : Z) :
  0 < d -> Z.abs (2 * (n - round_half_even n d * d)) <= d.
Proof.
  intros Hd. unfold round_half_even.
  pose proof (Z.div_mod n d ltac:(lia)) as E.
  pose proof (Z.mod_pos_bound n d Hd) as B.
  generalize dependent (n mod d). generalize dependent (n / d).
  intros q r E B.
  assert (n - q * d = r) as E0 by (rewrite E; ring).
  assert (n - (q + 1) * d = r - d) as E1 by (rewrite E; ring).
  destruct (Z.compare_spec (2 * r) d) as [C|C|C].
  - destruct (Z.even q); rewrite ?E0, ?E1; lia.
  - rewrite E0. lia.
  - rewrite E1. lia.
Qed.

Example format_known_values :
  map format_comma_2f
    [of_ratio 125 1000; of_ratio 375 1000; of_ratio 2675 1000;
     of_ratio 1234567891 1000; SFopp (of_ratio 1 1000); of_Z 1000;
     of_Z (-1234); S754_zero true; infinity; neg_infinity; nan]
  = ["0.12"; "0.38"; "2.67"; "1,234,567.89"; "-0.00"; "1,000.00";
     "-1,234.00"; "-0.00"; "inf"; "-inf"; "nan"].
Proof. vm_compute. reflexivity. Qed.

Lemma fixed2_two_decimals (comma s : bool) (h : Z) :
  two_decimal_places_chars (fixed2 comma s h) = true.
Proof.
  unfold fixed2, two_decimal_places_chars.
  assert (integral_rev_ok
            (rev (if comma then group3 (digits (h / 100)) else digits (h / 100))))
    as (d0 & rest & E & H0 & Hrest).
  { destruct comma; [apply group3_rev_ok | apply digits_rev_ok]. }
  rewrite !rev_app_distr. cbn [rev app]. rewrite E. cbn [app].
  rewrite !digit_char_is_digit, H0.
  - cbn. apply integral_not_point. rewrite forallb_app, Hrest.
    destruct s; reflexivity.
  - assert (0 <= h mod 100 < 100) by (apply Z.mod_pos_bound; lia).
    split; [apply Z.div_pos; lia | apply Z.div_lt_upper_bound; lia].
  - apply Z.mod_pos_bound; lia.
Qed.

Lemma format_2f_chars_finite (comma : bool) (x : float) :
  is_finite x = true -> two_decimal_places_chars (format_2f_chars comma x) = true.
Proof.
  destruct x; cbn [is_finite format_2f_chars]; try discriminate; intros _;
    apply fixed2_two_decimals.
Qed.

Lemma format_comma_2f_finite (x : float) :
  is_finite x = true -> two_decimal_places (format_comma_2f x) = true.
Proof.
  intros H. unfold two_decimal_places, format_comma_2f.
  rewrite list_ascii_of_string_of_list_ascii. now apply format_2f_chars_finite.
Qed.

Lemma format_2f_finite (x : float) :
  is_finite x = true -> two_decimal_places (format_2f x) = true.
Proof.
  intros H. unfold two_decimal_places, format_2f.
  rewrite list_ascii_of_string_of_list_ascii. now apply format_2f_chars_finite.
Qed.

Lemma format_comma_2f_not_finite (x : float) :
  is_finite x = false -> two_decimal_places (format_comma_2f x) = false.
Proof. destruct x as [s|[|]| |s m e]; cbn; try discriminate; reflexivity. Qed.

End FormatFacts.

Lemma predict_calls_load_trace (a : option string) (w : world) :
  predict_calls (load_trace a w) = [].
Proof.
  unfold load_trace. destruct (cache w !! a); [reflexivity|].
  destruct (fs w !! resolve (cwd w) (model_path_of a)); reflexivity.
Qed.

(** ** The page and the loader against their specification *)

(** C1.  Every run after a click passes to [predict], when it calls it at
    all, one matrix of one row and seven columns that holds the values of
    the widgets in the order date_hour, wind_speed, sunshine, air_pressure,
    radiation, air_temperature, relative_humidity; it calls [predict] once
    when the model is available and not at all otherwise. *)
Theorem predict_receives_seven_features (w : world) :
  let x := Array2 [[read w DateHour; read w WindSpeed; read w Sunshine;
                    read w AirPressure; read w Radiation;
                    read w AirTemperature; read w RelativeHumidity]] in
  exists new : list event,
    events (rerun true w) = events w ++ new
    /\ predict_calls new = (if available w then [x] else [])
    /\ shape x = [1; 7]%nat
    /\ flat x = map (read w) all_fields.
Proof.
  cbn zeta.
  exists (load_trace no_args w
            ++ inference_events (read_inputs w) w).
  rewrite click_world. cbn [events]. rewrite load_model_events, <- app_assoc.
  split; [reflexivity|]. split; [|split; reflexivity].
  unfold predict_calls. rewrite flat_map_app.
  fold (predict_calls (load_trace no_args w)).
  rewrite predict_calls_load_trace. unfold inference_events, available.
  destruct (fst (load_model no_args w)); reflexivity.
Qed.

Example predict_receives_defaults :
  predict_calls (events (rerun true (Sample.fresh Sample.constant_model)))
  = [Array2 [[of_Z 1; of_ratio 35 10; of_Z 6; of_Z 1013; of_Z 650; of_Z 28;
              of_Z 45]]].
Proof. vm_compute. reflexivity. Qed.

Lemma not_found_message_contains (p : string) :
  exists pre post : string, not_found_message p = pre +:+ p +:+ post.
Proof.
  exists "Model file '",
    ("' not found. " +:+ "Make sure it is in the same folder as app.py.").
  reflexivity.
Qed.

(** C2, as amended.  When the path does not exist and the process holds no
    cached model for the call, [load_model] raises [FileNotFoundError]
    with a message that contains the path as given, after the existence
    check alone: nothing is deserialized, no object is created and nothing
    is cached.  For the call of the page, the output column then shows
    exactly that message and no scalar. *)
Theorem missing_artifact_reported (w : world) (args : option string) :
  let p := model_path_of args in
  cache w !! args = None ->
  fs w !! resolve (cwd w) p = None ->
  load_model args w
    = (Raise (mk_exn FileNotFoundError (not_found_message p) [line_112]),
       set_events (events w ++ [EvExists (resolve (cwd w) p)]) w)
  /\ (exists pre post : string, not_found_message p = pre +:+ p +:+ post)
  /\ (args = no_args ->
      page (rerun true w)
        = [Markdown card_open; Markdown output_title;
           Error (not_found_message p); Markdown card_close]).
Proof.
  cbn zeta. intros Hc Hf. pose proof (load_model_missing w args Hc Hf) as E.
  split; [exact E|]. split; [apply not_found_message_contains|].
  intros ->. rewrite click_world. cbn [page].
  unfold expected_page, inference. rewrite E. reflexivity.
Qed.

Lemma missing_artifact_reported_witness :
  page (rerun true Sample.elsewhere)
    = [Markdown card_open; Markdown output_title;
       Error (not_found_message default_model_path); Markdown card_close].
Proof.
  apply (missing_artifact_reported Sample.elsewhere no_args);
    reflexivity.
Defined.

(** C2 fails as stated: a process that has loaded the model keeps serving
    it after the file is gone; the path does not exist, the call returns
    the cached object and the page shows a scalar. *)
Lemma missing_artifact_served_from_cache :
  fs Sample.orphaned !! resolve (cwd Sample.orphaned) default_model_path = None
  /\ load_model no_args Sample.orphaned
     = (Ok (mk_Predictor 0 Sample.constant_model), Sample.orphaned)
  /\ nth_error (page (rerun true Sample.orphaned)) 2
     = Some (Metric metric_label "1,234,567.89").
Proof. repeat split; vm_compute; reflexivity. Qed.

(** C3, as amended.  Once a call has returned a model, every later call
    of the process that passes the same arguments returns the same object
    and changes nothing, so it touches no file, whatever the user did and
    whatever happened to the file in between; and the call that filled the
    cache checked the path and read the file once.  The page always passes
    the same arguments, none. *)
Theorem load_model_cached_after_success
    (w : world) (args : option string) (m : Predictor) (acts : list action) :
  fst (load_model args w) = Ok m ->
  let q := resolve (cwd w) (model_path_of args) in
  let w1 := snd (load_model args w) in
  let w2 := run w1 acts in
  load_model args w2 = (Ok m, w2)
  /\ (cache w !! args = None ->
      events w1 = events w ++ [EvExists q; EvJoblibLoad q]).
Proof.
  intros H. cbn zeta. split.
  - apply load_model_hit, run_keeps, load_model_stores, H.
  - intros Hc. rewrite load_model_events. unfold load_trace. rewrite Hc.
    destruct (fs w !! resolve (cwd w) (model_path_of args)) eqn:Hf;
      [reflexivity|].
    rewrite (load_model_missing w args Hc Hf) in H. discriminate H.
Qed.

Lemma load_model_cached_after_success_witness :
  let w1 := snd (load_model no_args (Sample.fresh Sample.constant_model)) in
  let w2 := run w1 [FsRemove Sample.artifact_path; Click] in
  load_model no_args w2
    = (Ok (mk_Predictor 0 Sample.constant_model), w2).
Proof.
  apply (load_model_cached_after_success (Sample.fresh Sample.constant_model)
           no_args (mk_Predictor 0 Sample.constant_model)
           [FsRemove Sample.artifact_path; Click]).
  reflexivity.
Defined.

(** The store goes by the arguments, not by the path they denote: a call
    that names the default path after a call without arguments misses the
    cache, reads the file again and yields a second object. *)
Example same_path_other_arguments :
  let w0 := Sample.fresh Sample.constant_model in
  let r1 := load_model no_args w0 in
  let r2 := load_model (Some default_model_path) (snd r1) in
  model_path_of no_args = model_path_of (Some default_model_path)
  /\ fst r1 = Ok (mk_Predictor 0 Sample.constant_model)
  /\ fst r2 = Ok (mk_Predictor 1 Sample.constant_model)
  /\ loads (events (snd r2)) = [Sample.artifact_path; Sample.artifact_path].
Proof. repeat split; vm_compute; reflexivity. Qed.

(** Without the cache the two calls would yield two objects. *)
Example load_model_body_fresh_objects :
  let w0 := Sample.fresh Sample.constant_model in
  let r1 := load_model_body default_model_path w0 in
  let r2 := load_model_body default_model_path (snd r1) in
  fst r1 = Ok (mk_Predictor 0 Sample.constant_model)
  /\ fst r2 = Ok (mk_Predictor 1 Sample.constant_model).
Proof. split; vm_compute; reflexivity. Qed.

(** C3 fails as stated: a call that raises caches nothing, so with a file
    that cannot be unpickled two calls in a row read the file twice. *)
Lemma failed_load_reads_again :
  let w0 := Sample.corrupt in
  let w1 := snd (load_model no_args w0) in
  let w2 := snd (load_model no_args w1) in
  fst (load_model no_args w0) = Raise (in_frame line_116 Sample.truncated)
  /\ fst (load_model no_args w1) = Raise (in_frame line_116 Sample.truncated)
  /\ events w2 = [EvExists Sample.artifact_path;
                  EvJoblibLoad Sample.artifact_path;
                  EvExists Sample.artifact_path;
                  EvJoblibLoad Sample.artifact_path].
Proof. repeat split; vm_compute; reflexivity. Qed.

Lemma failure_message_distinct (p : string) :
  failure_message <> not_found_message p.
Proof. unfold failure_message, not_found_message. cbn. discriminate. Qed.

(** C4, as amended.  When the inference call raises an exception of a
    subclass of [Exception] other than [FileNotFoundError], the output
    column shows the generic failure message, which no missing-artifact
    message equals, followed by the [st.exception] box of that exception.
    The box stands in the column itself, not in an expander: the stack
    trace of the exception, which starts at line 265 of [app.py], is put
    before the user directly, and no expander holds any of it back. *)
Theorem inference_exception_reported (w : world) (m : Predictor) (e : exn) :
  fst (load_model no_args w) = Ok m ->
  predict m (served m w) (features_of (read_inputs w)) = Raise e ->
  is_FileNotFoundError e = false ->
  is_Exception e = true ->
  page (rerun true w)
    = [Markdown card_open; Markdown output_title;
       Error failure_message; ExceptionBox (in_frame line_265 e);
       Markdown card_close]
  /\ (forall p : string, failure_message <> not_found_message p)
  /\ traces_shown_directly (page (rerun true w)) = [line_265 :: traceback e]
  /\ traces_in_collapsed (page (rerun true w)) = [].
Proof.
  intros Hl Hp Hf He.
  assert (page (rerun true w)
          = [Markdown card_open; Markdown output_title;
             Error failure_message; ExceptionBox (in_frame line_265 e);
             Markdown card_close]) as E.
  { rewrite click_world. cbn [page]. unfold expected_page, inference.
    rewrite Hl, Hp. cbn [framed]. unfold error_elements.
    change (is_FileNotFoundError (in_frame line_265 e))
      with (is_FileNotFoundError e).
    change (is_Exception (in_frame line_265 e)) with (is_Exception e).
    rewrite Hf, He. reflexivity. }
  split; [exact E|]. split; [apply failure_message_distinct|].
  rewrite E. split; reflexivity.
Qed.

Lemma inference_exception_reported_witness :
  page (rerun true (Sample.fresh Sample.picky_model))
    = [Markdown card_open; Markdown output_title;
       Error failure_message;
       ExceptionBox (in_frame line_265 Sample.shape_error);
       Markdown card_close].
Proof.
  apply (inference_exception_reported (Sample.fresh Sample.picky_model)
           (mk_Predictor 0 Sample.picky_model) Sample.shape_error);
    reflexivity.
Defined.

(** C4 fails as stated, in three ways.  A [FileNotFoundError] raised by
    the inference call is shown as its own text, not as the generic failure
    message.  An exception outside [Exception] is not caught: the script
    raises it and no message is shown.  And for an ordinary error, here a
    wrong feature count, the stack trace is put before the user directly,
    in a box of the column itself, and not in an expandable view. *)
Lemma inference_exceptions_not_as_claimed :
  let lazy := Sample.fresh Sample.lazy_model in
  let interrupted := Sample.fresh Sample.interrupted_model in
  let picky := Sample.fresh Sample.picky_model in
  (page (rerun true lazy)
   = [Markdown card_open; Markdown output_title;
      Error "[Errno 2] No such file or directory: 'scaler.pkl'";
      Markdown card_close]
   /\ existsb (fun el => if el is Error s then String.eqb s failure_message
                         else false) (page (rerun true lazy)) = false)
  /\ (fst (script true (set_page [] interrupted))
      = Raise (in_frame line_265 Sample.interrupt)
      /\ page (rerun true interrupted)
         = [Markdown card_open; Markdown output_title])
  /\ (inference (read_inputs picky) picky
      = Raise (in_frame line_265 Sample.shape_error)
      /\ traces_shown_directly (page (rerun true picky)) = [[line_265]]
      /\ traces_in_collapsed (page (rerun true picky)) = []).
Proof. cbn zeta. repeat split; vm_compute; reflexivity. Qed.

(** C8.  The handlers tell errors apart by class, not by origin: a
    [FileNotFoundError] raised by the inference call itself is shown as the
    bare text of that exception, as a missing artifact would be, and
    neither the generic failure message nor the exception box appears. *)
Theorem inference_FileNotFoundError_shown_bare
    (w : world) (m : Predictor) (e : exn) :
  fst (load_model no_args w) = Ok m ->
  predict m (served m w) (features_of (read_inputs w)) = Raise e ->
  is_FileNotFoundError e = true ->
  page (rerun true w)
    = [Markdown card_open; Markdown output_title; Error (str e);
       Markdown card_close].
Proof.
  intros Hl Hp Hf. rewrite click_world. cbn [page].
  unfold expected_page, inference. rewrite Hl, Hp. cbn [framed].
  unfold error_elements. unframe. rewrite Hf. reflexivity.
Qed.

Lemma inference_FileNotFoundError_shown_bare_witness :
  page (rerun true (Sample.fresh Sample.lazy_model))
    = [Markdown card_open; Markdown output_title;
       Error (str Sample.side_file_error); Markdown card_close].
Proof.
  apply (inference_FileNotFoundError_shown_bare (Sample.fresh Sample.lazy_model)
           (mk_Predictor 0 Sample.lazy_model) Sample.side_file_error);
    reflexivity.
Defined.

Lemma item_size (a : ndarray) : array_size a <> 1%nat -> item a = Raise item_error.
Proof.
  unfold item, array_size. destruct (flat a) as [|x [|y l]]; cbn; intros H;
    [reflexivity | congruence | reflexivity].
Qed.

(** C9.  When the array returned by [predict] does not hold exactly one
    element, [.item()] raises a [ValueError] inside the [try] block: the
    output column shows the generic failure message with the exception box,
    and no metric. *)
Theorem item_requires_one_element (w : world) (m : Predictor) (out : ndarray) :
  fst (load_model no_args w) = Ok m ->
  predict m (served m w) (features_of (read_inputs w)) = Ok out ->
  array_size out <> 1%nat ->
  inference (read_inputs w) w = Raise (in_frame line_265 item_error)
  /\ page (rerun true w)
     = [Markdown card_open; Markdown output_title;
        Error failure_message; ExceptionBox (in_frame line_265 item_error);
        Markdown card_close].
Proof.
  intros Hl Hp Hs.
  assert (inference (read_inputs w) w = Raise (in_frame line_265 item_error))
    as Hi.
  { unfold inference. rewrite Hl, Hp, (item_size out Hs). reflexivity. }
  split; [exact Hi|].
  rewrite click_world. cbn [page]. unfold expected_page. rewrite Hi.
  reflexivity.
Qed.

Lemma item_requires_one_element_witness :
  page (rerun true (Sample.fresh Sample.two_target_model))
    = [Markdown card_open; Markdown output_title;
       Error failure_message; ExceptionBox (in_frame line_265 item_error);
       Markdown card_close].
Proof.
  apply (item_requires_one_element (Sample.fresh Sample.two_target_model)
           (mk_Predictor 0 Sample.two_target_model)
           (Array2 [[of_Z 1; of_Z 2]])); [reflexivity | reflexivity |].
  vm_compute. discriminate.
Defined.

(** C5, as amended.  After a successful prediction the output column shows
    the metric with the scalar formatted by [,.2f], the success notice with
    the date_hour value formatted by [.2f], and a collapsed expander that
    holds the 1x7 feature matrix; the metric text has exactly two decimal
    places exactly when the scalar is finite, and so has the echoed
    date_hour. *)
Theorem successful_prediction_page
    (w : world) (m : Predictor) (out : ndarray) (prediction : float) :
  fst (load_model no_args w) = Ok m ->
  predict m (served m w) (features_of (read_inputs w)) = Ok out ->
  item out = Ok prediction ->
  page (rerun true w)
    = [Markdown card_open; Markdown output_title;
       Metric metric_label (format_comma_2f prediction);
       Success (success_message (read w DateHour));
       Expander expander_label false [Write (features_of (read_inputs w))];
       Markdown card_close]
  /\ shape (features_of (read_inputs w)) = [1; 7]%nat
  /\ two_decimal_places (format_comma_2f prediction) = is_finite prediction
  /\ two_decimal_places (format_2f (read w DateHour)) = is_finite (read w DateHour).
Proof.
  intros Hl Hp Hi. split; [|split; [reflexivity|split]].
  - rewrite click_world. cbn [page]. unfold expected_page, inference.
    rewrite Hl, Hp, Hi. reflexivity.
  - destruct (is_finite prediction) eqn:E.
    + now apply FormatFacts.format_comma_2f_finite.
    + now apply FormatFacts.format_comma_2f_not_finite.
  - destruct (is_finite (read w DateHour)) eqn:E.
    + now apply FormatFacts.format_2f_finite.
    + destruct (read w DateHour) as [s|[|]| |s m' e]; cbn in E |- *;
        try discriminate; reflexivity.
Qed.

Lemma successful_prediction_page_witness :
  page (rerun true (Sample.fresh Sample.constant_model))
    = [Markdown card_open; Markdown output_title;
       Metric metric_label "1,234,567.89";
       Success "✅ Prediction generated successfully for Date-Hour (NMT): **1.00**";
       Expander expander_label false
         [Write (features_of (read_inputs (Sample.fresh Sample.constant_model)))];
       Markdown card_close].
Proof.
  apply (successful_prediction_page (Sample.fresh Sample.constant_model)
           (mk_Predictor 0 Sample.constant_model)
           (Array1 [of_ratio 1234567891 1000]) (of_ratio 1234567891 1000));
    reflexivity.
Defined.

(** C5 fails as stated: a prediction that is not a number is a successful
    prediction, and its metric has no decimal places. *)
Lemma nan_prediction_has_no_decimals :
  inference (read_inputs (Sample.fresh Sample.nan_model))
    (Sample.fresh Sample.nan_model) = Ok nan
  /\ nth_error (page (rerun true (Sample.fresh Sample.nan_model))) 2
     = Some (Metric metric_label "nan")
  /\ two_decimal_places "nan" = false.
Proof. repeat split; vm_compute; reflexivity. Qed.






Lemma violates_out_of_range (f : field) (v : float) :
  violates f v = out_of_range (widget f) v.
Proof.
  destruct f; try reflexivity.
  destruct v as [s|[|]| |[|] m e]; reflexivity.
Qed.

Lemma read_ok (w : world) (f : field) :
  session_ok w -> is_finite (read w f) = true /\ violates f (read w f) = false.
Proof.
  intros H. specialize (H f). unfold acceptable in H.
  apply andb_true_iff in H as [Hfin Hout]. apply negb_true_iff in Hout.
  now rewrite violates_out_of_range.
Qed.

(** C7.  In every state the process can reach, the seven values of the
    feature vector are finite and none lies strictly below the minimum or
    strictly above the maximum tabulated for its field; an entry that does
    leaves the session as it was; date_hour has no bound. *)
Theorem widget_bounds_enforced
    (f0 : gmap string file) (dir : string) (acts : list action) :
  let w := run (start f0 dir) acts in
  Forall2 (fun f v => is_finite v = true /\ violates f v = false)
    all_fields (flat (features_of (read_inputs w)))
  /\ (forall (f : field) (v : float) (w' : world),
        violates f v = true -> session (react w' (Enter f v)) = session w')
  /\ (forall v : float, violates DateHour v = false).
Proof.
  cbn zeta. split; [|split].
  - pose proof (run_ok acts _ (start_ok f0 dir)) as H.
    unfold all_fields. cbn [features_of np_array flat concat read_inputs app
           date_hour wind_speed sunshine air_pressure radiation
           air_temperature relative_humidity].
    repeat (apply List.Forall2_cons; [apply read_ok, H|]).
    apply List.Forall2_nil.
  - intros f v w' Hv. cbn [react]. rewrite rerun_session. unfold commit.
    rewrite <- violates_out_of_range, Hv, orb_true_r. reflexivity.
  - intros v. rewrite violates_out_of_range.
    destruct v as [s|[|]| |[|] m e]; reflexivity.
Qed.

Lemma widget_bounds_enforced_witness :
  session (react (Sample.fresh Sample.constant_model)
             (Enter WindSpeed (of_ratio 501 10)))
  = session (Sample.fresh Sample.constant_model).
Proof.
  apply (widget_bounds_enforced ∅ "/app" []). vm_compute. reflexivity.
Defined.

Example wind_speed_boundaries :
  map (violates WindSpeed)
    [of_Z 0; of_Z 50; SFpred prec emax (of_Z 0); SFsucc prec emax (of_Z 50)]
  = [false; false; true; true].
Proof. vm_compute. reflexivity. Qed.

Example air_temperature_boundaries :
  map (violates AirTemperature)
    [of_Z (-20); of_Z 60; SFpred prec emax (of_Z (-20));
     SFsucc prec emax (of_Z 60)]
  = [false; false; true; true].
Proof. vm_compute. reflexivity. Qed.

Lemma list_ascii_of_string_app (a b : string) :
  list_ascii_of_string (a +:+ b)
    = list_ascii_of_string a ++ list_ascii_of_string b.
Proof. induction a as [|c a IH]; simpl; [reflexivity | now rewrite IH]. Qed.

Lemma append_inv_tail (a b s : string) : a +:+ s = b +:+ s -> a = b.
Proof.
  intros H. apply (f_equal list_ascii_of_string) in H.
  rewrite !list_ascii_of_string_app in H. apply app_inv_tail in H.
  apply (f_equal string_of_list_ascii) in H.
  now rewrite !string_of_list_ascii_of_string in H.
Qed.

(** The outcome of a call is decided by the cache entry, the content of
    the resolved path and the object counter. *)
Lemma load_model_result_ext (a : option string) (w w' : world) :
  cache w' !! a = cache w !! a ->
  fs w' !! resolve (cwd w') (model_path_of a) = fs w !! resolve (cwd w) (model_path_of a) ->
  next_id w' = next_id w ->
  fst (load_model a w') = fst (load_model a w).
Proof.
  intros Ec Ef En.
  destruct (load_cases w a) as [m Hc | Hc Hf | f Hc Hf | e Hc Hf];
    rewrite <- Ec in Hc; try rewrite <- Ef in Hf.
  - rewrite (load_model_hit w' a m Hc). rewrite Ec in Hc.
    now rewrite (load_model_hit w a m Hc).
  - rewrite (load_model_missing w' a Hc Hf). rewrite Ec in Hc. rewrite Ef in Hf.
    now rewrite (load_model_missing w a Hc Hf).
  - rewrite (load_model_pickled w' a f Hc Hf). rewrite Ec in Hc. rewrite Ef in Hf.
    rewrite (load_model_pickled w a f Hc Hf). cbn. now rewrite En.
  - rewrite (load_model_unloadable w' a e Hc Hf). rewrite Ec in Hc.
    rewrite Ef in Hf. now rewrite (load_model_unloadable w a e Hc Hf).
Qed.

(** C10.  The default path is relative, so the existence check and the
    load, when the call makes them, both go to
    [system_production_model.pkl] in the working directory of the process,
    and to no other path.  A file of that name in the folder of [app.py],
    when that folder is not the working directory, does not change the
    outcome: if the working directory lacks the file and nothing is cached,
    the call raises, and its message still says to put the file in the same
    folder as [app.py]. *)
Theorem default_path_resolved_in_cwd (w : world) (app_dir : string) (c : file) :
  app_dir <> cwd w ->
  let q := cwd w +:+ "/system_production_model.pkl" in
  let beside_app :=
    set_fs (<[app_dir +:+ "/system_production_model.pkl" := c]> (fs w)) w in
  events (snd (load_model no_args w))
    = events w ++ match cache w !! no_args, fs w !! q with
                  | Some _, _ => []
                  | None, Some _ => [EvExists q; EvJoblibLoad q]
                  | None, None => [EvExists q]
                  end
  /\ fst (load_model no_args beside_app)
     = fst (load_model no_args w)
  /\ (cache w !! no_args = None ->
      fs w !! q = None ->
      fst (load_model no_args beside_app)
        = Raise (mk_exn FileNotFoundError
                   "Model file 'system_production_model.pkl' not found. Make sure it is in the same folder as app.py."
                   [line_112])).
Proof.
  intros Hne. cbn zeta.
  assert (fst (load_model no_args
                 (set_fs (<[app_dir +:+ "/system_production_model.pkl" := c]>
                            (fs w)) w))
          = fst (load_model no_args w)) as E.
  { apply load_model_result_ext; try reflexivity.
    cbn [fs cwd set_fs]. apply lookup_insert_ne.
    intros H. apply Hne. exact (append_inv_tail _ _ _ H). }
  split; [|split].
  - rewrite load_model_events. unfold load_trace.
    destruct (cache w !! no_args); reflexivity.
  - exact E.
  - intros Hc Hf. rewrite E.
    now rewrite (load_model_missing w no_args Hc Hf).
Qed.

Lemma default_path_resolved_in_cwd_witness :
  fst (load_model no_args Sample.elsewhere)
    = Raise (mk_exn FileNotFoundError
               "Model file 'system_production_model.pkl' not found. Make sure it is in the same folder as app.py."
               [line_112]).
Proof.
  apply (default_path_resolved_in_cwd (start ∅ "/srv") "/app"
           (Pickled Sample.constant_model)).
  - discriminate.
  - reflexivity.
  - reflexivity.
Defined.

(** * Further properties *)

(** ** Editing the fields never reaches the model *)

Lemma react_quiet (w : world) (a : action) :
  is_click a = false ->
  events (react w a) = events w /\ cache (react w a) = cache w
  /\ next_id (react w a) = next_id w.
Proof.
  destruct a as [f v| | |]; cbn [is_click react]; intros H;
    [|discriminate| |]; try (repeat split; reflexivity).
  rewrite idle_world. unfold commit.
  destruct (negb (is_finite v) || out_of_range (widget f) v);
    repeat split; reflexivity.
Qed.

(** X1.  The model is loaded and called on a click only: whatever the user
    enters in the fields and whatever happens to the files, as long as the
    button is not pressed the process makes no file-system access and no
    inference call, creates no object and caches nothing, and the output
    column of a run shows the prompt alone. *)
Theorem entries_never_reach_the_model (w : world) (acts : list action) :
  forallb (fun a => negb (is_click a)) acts = true ->
  events (run w acts) = events w
  /\ cache (run w acts) = cache w
  /\ next_id (run w acts) = next_id w
  /\ (forall (f : field) (v : float),
        page (run w (acts ++ [Enter f v]))
          = [Markdown card_open; Markdown output_title; Info idle_message;
             Markdown card_close]).
Proof.
  intros H.
  assert (events (run w acts) = events w /\ cache (run w acts) = cache w
          /\ next_id (run w acts) = next_id w) as (He & Hc & Hn).
  { revert w. induction acts as [|a acts IH]; intros w; [now cbn|].
    cbn in H. apply andb_true_iff in H as [Ha H]. apply negb_true_iff in Ha.
    destruct (react_quiet w a Ha) as (He & Hc & Hn).
    destruct (IH H (react w a)) as (He' & Hc' & Hn'). cbn [run fold_left].
    unfold run in *. now rewrite He', Hc', Hn'. }
  repeat split; auto.
  intros f v. unfold run. rewrite fold_left_app. cbn [fold_left react].
  rewrite idle_world. reflexivity.
Qed.

Lemma entries_never_reach_the_model_witness :
  events (run Sample.elsewhere
            [Enter WindSpeed (of_Z 10); FsRemove Sample.artifact_path;
             Enter DateHour (of_Z 2)]) = [].
Proof.
  apply (entries_never_reach_the_model Sample.elsewhere
           [Enter WindSpeed (of_Z 10); FsRemove Sample.artifact_path;
            Enter DateHour (of_Z 2)]).
  reflexivity.
Defined.

(** ** What a click shows, and when the run is cut short *)

Lemma output_column_click_result (i : inputs) (w : world) :
  fst (output_column true i w)
    = match inference i w with
      | Ok _ => Ok tt
      | Raise e => if is_Exception e then Ok tt else Raise e
      end.
Proof.
  pose proof (fun m => served_load_model m no_args w) as Hsv.
  unfold inference, output_column.
  unfold mbind, M_bind, render at 1 2, try_except.
  rewrite predict_and_show_eq.
  change (set_page (page (set_page (page w ++ [Markdown card_open]) w)
                      ++ [Markdown output_title])
            (set_page (page w ++ [Markdown card_open]) w))
    with (set_page ((page w ++ [Markdown card_open]) ++ [Markdown output_title]) w).
  rewrite load_model_page.
  destruct (load_model no_args w) as [[m|e] w1]; cbn [fst snd] in *.
  - change (served m (set_page ((page w ++ [Markdown card_open])
                                  ++ [Markdown output_title]) w1))
      with (served m w1).
    rewrite Hsv.
    destruct (predict m (served m w) (features_of i)) as [out|e];
      [destruct (item out) as [x|e]|]; cbn [framed];
      rewrite ?on_error_eq; try reflexivity.
    all: destruct e as [[| | |] msg tb]; reflexivity.
  - rewrite on_error_eq. destruct e as [[| | |] msg tb]; reflexivity.
Qed.

Lemma existsb_error_elements (e : exn) :
  existsb is_error (error_elements e) = is_Exception e
  /\ existsb is_metric (error_elements e) = false
  /\ existsb is_success (error_elements e) = false.
Proof. destruct e as [[| | |] msg tb]; repeat split; reflexivity. Qed.

(** X2.  A click shows a prediction or an error, never both and never a
    part of either: the metric and the success notice appear exactly when
    loading, inference and [.item()] all went through, an error message
    appears exactly when one of them raised an [Exception], and an
    exception outside [Exception] shows neither. *)
Theorem prediction_or_error_never_both (w : world) :
  let pg := page (rerun true w) in
  let outcome := inference (read_inputs w) w in
  existsb is_metric pg = (if outcome is Ok _ then true else false)
  /\ existsb is_success pg = existsb is_metric pg
  /\ existsb is_error pg = (if outcome is Raise e then is_Exception e else false)
  /\ existsb is_metric pg && existsb is_error pg = false.
Proof.
  cbn zeta. rewrite click_world. cbn [page]. unfold expected_page.
  destruct (inference (read_inputs w) w) as [x|e].
  - repeat split; reflexivity.
  - destruct (existsb_error_elements e) as (He & Hm & Hs).
    cbn [app existsb is_metric is_error is_success orb].
    rewrite He, Hm, Hs. repeat split; reflexivity.
Qed.

(** X3.  An exception outside [Exception] ([KeyboardInterrupt],
    [SystemExit]) is caught by neither clause: it ends the run, and the
    output column keeps its two opening elements only, without the
    closing markup; in every other case the run completes and the
    closing markup is the last element. *)
Theorem run_completes_unless_not_an_Exception (w : world) :
  let outcome := inference (read_inputs w) w in
  fst (script true (set_page [] w))
    = (if outcome is Raise e
       then if is_Exception e then Ok tt else Raise e
       else Ok tt)
  /\ last (page (rerun true w))
     = (if outcome is Raise e
        then if is_Exception e then Some (Markdown card_close)
             else Some (Markdown output_title)
        else Some (Markdown card_close)).
Proof.
  cbn zeta. split.
  - rewrite script_eq, output_column_click_result.
    change (read_inputs (set_page [] w)) with (read_inputs w).
    unfold inference. rewrite load_model_page. cbn [fst]. reflexivity.
  - rewrite click_world. cbn [page]. unfold expected_page.
    destruct (inference (read_inputs w) w) as [x|e]; [reflexivity|].
    destruct e as [[| | |] msg tb]; reflexivity.
Qed.

(** X4.  When the file exists but [joblib.load] raises an [Exception]
    that is not a [FileNotFoundError], the click shows the generic failure
    message with the exception box, [predict] is not called, and nothing
    is cached. *)
Theorem unloadable_artifact_reported (w : world) (e : exn) :
  cache w !! no_args = None ->
  fs w !! resolve (cwd w) default_model_path = Some (Unloadable e) ->
  is_FileNotFoundError e = false ->
  is_Exception e = true ->
  page (rerun true w)
    = [Markdown card_open; Markdown output_title; Error failure_message;
       ExceptionBox (in_frame line_253 (in_frame line_116 e));
       Markdown card_close]
  /\ cache (rerun true w) = cache w
  /\ next_id (rerun true w) = next_id w
  /\ predict_calls (events (rerun true w)) = predict_calls (events w).
Proof.
  intros Hc Hf Hn He. rewrite click_world.
  cbn [page cache next_id events].
  unfold expected_page, inference, inference_events.
  rewrite (load_model_unloadable w _ e Hc Hf). cbn [fst snd].
  unfold error_elements. unframe. rewrite Hn, He.
  repeat split; try reflexivity.
  cbn [events set_events]. unfold predict_calls.
  rewrite !flat_map_app. cbn. now rewrite !app_nil_r.
Qed.

Lemma unloadable_artifact_reported_witness :
  page (rerun true Sample.corrupt)
    = [Markdown card_open; Markdown output_title; Error failure_message;
       ExceptionBox (in_frame line_253 (in_frame line_116 Sample.truncated));
       Markdown card_close].
Proof.
  apply (unloadable_artifact_reported Sample.corrupt Sample.truncated);
    reflexivity.
Defined.

(** ** A failed load is tried again *)

Lemma load_model_raise (a : option string) (w : world) (e : exn) :
  fst (load_model a w) = Raise e ->
  cache w !! a = None
  /\ cache (snd (load_model a w)) = cache w
  /\ next_id (snd (load_model a w)) = next_id w.
Proof.
  load_cases w a; cbn [fst snd]; intros H; try discriminate;
    repeat split; auto.
Qed.

(** X5.  A load that raised leaves no trace in the cache, so the process
    recovers without a restart: once a loadable artifact is put at the
    path, the next click deserializes it, caches the new object and
    predicts with it. *)
Theorem failed_load_is_retried
    (w : world) (e : exn) (f : list ndarray -> ndarray -> result ndarray) :
  fst (load_model no_args w) = Raise e ->
  let w1 := react w Click in
  let w2 := react w1 (FsPut (resolve (cwd w) default_model_path) (Pickled f)) in
  let w3 := react w2 Click in
  cache w1 !! no_args = None
  /\ cache w3 !! no_args = Some (mk_Predictor (next_id w) f)
  /\ inference (read_inputs w) w2
     = framed line_265
         match f (served (mk_Predictor (next_id w) f) w2)
                 (features_of (read_inputs w)) with
         | Raise e' => Raise e'
         | Ok out => item out
         end
  /\ page w3 = expected_page (read_inputs w) w2.
Proof.
  intros H. destruct (load_model_raise _ _ _ H) as (Hc & Hc1 & Hn1).
  cbn zeta. cbn [react].
  set (w1 := rerun true w).
  assert (cache w1 = cache w /\ next_id w1 = next_id w /\ cwd w1 = cwd w
          /\ session w1 = session w) as (Ec & En & Ed & Es).
  { unfold w1. rewrite click_world. cbn. auto. }
  set (w2 := set_fs _ w1).
  assert (load_model no_args w2
          = (Ok (mk_Predictor (next_id w) f),
             mk_world (fs w2) (cwd w2)
               (<[no_args := mk_Predictor (next_id w) f]> (cache w2))
               (S (next_id w2)) (session w2)
               ((events w2 ++ [EvExists (resolve (cwd w2) default_model_path)])
                  ++ [EvJoblibLoad (resolve (cwd w2) default_model_path)])
               (page w2))) as El.
  { replace (next_id w) with (next_id w2) by (unfold w2; cbn; exact En).
    apply load_model_pickled.
    - unfold w2. cbn. now rewrite Ec.
    - unfold w2. cbn [fs cwd set_fs]. rewrite Ed. apply lookup_insert_eq. }
  assert (read_inputs w2 = read_inputs w) as Ei.
  { unfold read_inputs, read, w2. cbn [session set_fs]. now rewrite Es. }
  split; [now rewrite Ec|]. split; [|split].
  - rewrite click_world. cbn [cache]. rewrite El. cbn [snd cache].
    apply lookup_insert_eq.
  - unfold inference. rewrite El. reflexivity.
  - rewrite click_world. cbn [page]. now rewrite Ei.
Qed.

Lemma failed_load_is_retried_witness :
  let w2 := react (react Sample.elsewhere Click)
              (FsPut "/srv/system_production_model.pkl"
                 (Pickled Sample.constant_model)) in
  cache (react w2 Click) !! no_args
    = Some (mk_Predictor 0 Sample.constant_model).
Proof.
  apply (failed_load_is_retried Sample.elsewhere
           (mk_exn FileNotFoundError (not_found_message default_model_path)
              [line_112])
           Sample.constant_model).
  reflexivity.
Defined.

(** ** One object serves the whole process *)

Lemma predict_ids_load_trace (a : option string) (w : world) :
  predict_ids (load_trace a w) = [].
Proof.
  unfold load_trace. destruct (cache w !! a); [reflexivity|].
  destruct (fs w !! resolve (cwd w) (model_path_of a)); reflexivity.
Qed.

Lemma react_single_object (w : world) (a : action) :
  single_object w -> single_object (react w a).
Proof.
  intros [Hids Hinv]. destruct a as [g v| | |]; cbn [react].
  - rewrite idle_world. unfold commit.
    destruct (negb (is_finite v) || out_of_range (widget g) v); now split.
  - rewrite click_world. unfold single_object. cbn [events cache next_id].
    rewrite load_model_events. unfold predict_ids in *.
    rewrite !flat_map_app. fold (predict_ids (load_trace no_args w)).
    rewrite predict_ids_load_trace, app_nil_r. unfold inference_events.
    load_cases w no_args; cbn [fst snd cache next_id set_events];
      rewrite ?Hc in Hinv; rewrite ?lookup_insert_eq, ?Hc.
    + destruct Hinv as [Hid Hn]. split; [|now split].
      apply Forall_app. split; [exact Hids|]. cbn. now repeat constructor.
    + cbn. rewrite app_nil_r. now split.
    + cbn. split; [|split; [exact Hinv|now rewrite Hinv]].
      apply Forall_app. split; [exact Hids|]. now repeat constructor.
    + cbn. rewrite app_nil_r. now split.
  - now split.
  - now split.
Qed.

(** X6.  In the whole life of a process at most one model object is ever
    created, and every inference call the process makes goes to that
    object, however often the button is pressed and whatever happens to
    the file in between. *)
Theorem one_model_object_per_process
    (f0 : gmap string file) (dir : string) (acts : list action) :
  let w := run (start f0 dir) acts in
  next_id w <= 1
  /\ Forall (fun id => id = 0) (predict_ids (events w))
  /\ (forall m : Predictor, cache w !! no_args = Some m -> obj_id m = 0).
Proof.
  cbn zeta.
  assert (single_object (run (start f0 dir) acts)) as [He Hc].
  { assert (single_object (start f0 dir)) as H0
        by (split; [constructor | reflexivity]).
    revert H0. generalize (start f0 dir).
    induction acts as [|a acts IH]; intros w Hw; [exact Hw|].
    cbn. apply IH. now apply react_single_object. }
  split; [|split; [exact He|]].
  - destruct (cache _ !! no_args); lia.
  - intros m Hm. rewrite Hm in Hc. tauto.
Qed.

Example one_object_serves_three_clicks :
  predict_ids
    (events (run (Sample.fresh Sample.constant_model)
               [Click; FsPut Sample.artifact_path (Pickled Sample.nan_model);
                Click; FsRemove Sample.artifact_path; Click]))
  = [0; 0; 0].
Proof. vm_compute. reflexivity. Qed.

(** ** From the fields to the feature vector *)

Lemma commit_accepted (f : field) (v : float) (w : world) :
  acceptable f v = true ->
  session (commit (widget f) v w) = <[label (widget f) := v]> (session w).
Proof.
  unfold acceptable, commit. intros [Hfin Hout]%andb_true_iff.
  apply negb_true_iff in Hout. now rewrite Hfin, Hout.
Qed.

(** X7.  A finite entry within the bounds of its field is committed: the
    next run reads it for that field, the six other fields keep their
    values, and in the feature vector exactly the position of the field
    changes. *)
Theorem accepted_entry_reaches_the_feature_vector
    (w : world) (f : field) (v : float) :
  acceptable f v = true ->
  let w' := react w (Enter f v) in
  read w' f = v
  /\ (forall g : field, g <> f -> read w' g = read w g)
  /\ flat (features_of (read_inputs w'))
     = <[field_index f := v]> (flat (features_of (read_inputs w))).
Proof.
  intros Hv. cbn zeta. cbn [react].
  assert (read (rerun false (commit (widget f) v w)) f = v) as Hf.
  { rewrite read_rerun. unfold read. rewrite (commit_accepted f v w Hv).
    now rewrite lookup_insert_eq. }
  assert (forall g, g <> f ->
            read (rerun false (commit (widget f) v w)) g = read w g) as Hg.
  { intros g Hne. rewrite read_rerun. unfold read.
    rewrite (commit_accepted f v w Hv).
    rewrite lookup_insert_ne; [reflexivity|].
    intros E. apply Hne. symmetry. now apply label_inj. }
  split; [exact Hf|]. split; [exact Hg|].
  unfold read_inputs, features_of, np_array. cbn [flat concat app
    date_hour wind_speed sunshine air_pressure radiation air_temperature
    relative_humidity].
  destruct f; cbn [field_index]; rewrite Hf, !Hg by discriminate; reflexivity.
Qed.

Lemma accepted_entry_reaches_the_feature_vector_witness :
  read (react (Sample.fresh Sample.constant_model)
          (Enter AirTemperature (of_Z (-5)))) AirTemperature
  = of_Z (-5).
Proof.
  apply (accepted_entry_reaches_the_feature_vector
           (Sample.fresh Sample.constant_model) AirTemperature (of_Z (-5))).
  reflexivity.
Defined.

Lemma react_session (w w' : world) (a : action) :
  session w = session w' ->
  session (react w a)
    = if is_enter a then session (react w' a) else session w'.
Proof.
  intros E. destruct a as [f v| | |]; cbn [react is_enter].
  - rewrite !rerun_session. unfold commit.
    destruct (negb (is_finite v) || out_of_range (widget f) v);
      cbn [session set_session]; now rewrite E.
  - now rewrite rerun_session.
  - exact E.
  - exact E.
Qed.

(** X8.  The values in the fields are determined by what the user
    entered, in that order, and by nothing else: clicks, predictions,
    failures and changes of the file system never alter them. *)
Theorem inputs_depend_on_entries_only (w : world) (acts : list action) :
  read_inputs (run w acts) = read_inputs (run w (List.filter is_enter acts)).
Proof.
  assert (forall w1 w2 : world, session w1 = session w2 ->
            session (run w1 acts)
              = session (run w2 (List.filter is_enter acts))) as H.
  { induction acts as [|a acts IH]; intros w1 w2 E; [exact E|].
    cbn [List.filter run fold_left]. pose proof (react_session w1 w2 a E) as Ea.
    destruct (is_enter a); cbn [run fold_left]; now apply IH. }
  unfold read_inputs, read. now rewrite (H w w eq_refl).
Qed.

(** ** What a run leaves alone *)

(** X9.  A run of the script, with or without a click, is read-only on
    its surroundings: it does not change the file system, the working
    directory or the values of the fields; it only adds to the history,
    and whatever the cache held before it still holds. *)
Theorem run_is_read_only (b : bool) (w : world) :
  fs (rerun b w) = fs w
  /\ cwd (rerun b w) = cwd w
  /\ session (rerun b w) = session w
  /\ (exists new : list event, events (rerun b w) = events w ++ new)
  /\ cache w ⊆ cache (rerun b w)
  /\ next_id w <= next_id (rerun b w).
Proof.
  destruct b.
  - rewrite click_world. cbn [fs cwd session events cache next_id].
    rewrite load_model_events.
    split; [reflexivity|]. split; [reflexivity|]. split; [reflexivity|].
    split; [eexists; now rewrite <- app_assoc|].
    load_cases w no_args; cbn [snd cache next_id set_events];
      split; try reflexivity; try lia.
    now apply insert_subseteq.
  - rewrite idle_world. cbn. repeat split; try reflexivity.
    exists []. now rewrite app_nil_r.
Qed.

(** ** The displayed text denotes the rounded prediction *)

Module DisplayFacts.

Local Open Scope Z_scope.

Lemma digit_value_digit_char (d : Z) : 0 <= d < 10 -> digit_value (digit_char d) = d.
Proof.
  intros H.
  assert (d = 0 \/ d = 1 \/ d = 2 \/ d = 3 \/ d = 4 \/ d = 5 \/ d = 6
          \/ d = 7 \/ d = 8 \/ d = 9) as Hd by lia.
  repeat destruct Hd as [->|Hd]; try reflexivity. now subst.
Qed.

Ltac eval_digit_values :=
  repeat match goal with
         | |- context [digit_value ?c] =>
             let v := eval vm_compute in (digit_value c) in
             change (digit_value c) with v
         end.

Lemma fold_digits_acc (u : Decimal.uint) (acc : positive) :
  fold_left (fun a c => 10 * a + digit_value c) (uint_digits u) (Zpos acc)
  = Zpos (Pos.of_uint_acc u acc).
Proof.
  revert acc. induction u; intros acc; cbn [uint_digits fold_left Pos.of_uint_acc];
    [reflexivity|..].
  all: match goal with
       | |- fold_left _ _ ?a = Z.pos (Pos.of_uint_acc _ ?b) =>
           replace a with (Zpos b) by (eval_digit_values; lia)
       end; apply IHu.
Qed.

Lemma digits_value_uint (u : Decimal.uint) :
  digits_value (uint_digits u) = Z.of_N (Pos.of_uint u).
Proof.
  unfold digits_value. induction u; cbn [uint_digits fold_left Pos.of_uint];
    [reflexivity | exact IHu | ..].
  all: match goal with
       | |- fold_left _ _ ?a = Z.of_N (N.pos (Pos.of_uint_acc _ ?b)) =>
           replace a with (Zpos b) by (eval_digit_values; lia)
       end; apply fold_digits_acc.
Qed.

Lemma digits_value_digits (n : Z) : 0 <= n -> digits_value (digits n) = n.
Proof.
  intros H. unfold digits. rewrite digits_value_uint.
  change (Pos.of_uint (N.to_uint (Z.to_N n)))
    with (N.of_uint (N.to_uint (Z.to_N n))).
  rewrite DecimalN.Unsigned.of_to. lia.
Qed.

Lemma digit_not_comma (c : ascii) : is_digit c = true -> is_comma c = false.
Proof.
  unfold is_comma. destruct (Ascii.eqb_spec c ","%char) as [->|]; [|reflexivity].
  discriminate.
Qed.

Lemma ungroup_cons_digit (c : ascii) (l : list ascii) :
  is_digit c = true -> ungroup (c :: l) = c :: ungroup l.
Proof.
  intros H. unfold ungroup. cbn [List.filter].
  now rewrite (digit_not_comma c H).
Qed.

Lemma ungroup_cons_comma (l : list ascii) : ungroup (","%char :: l) = ungroup l.
Proof. reflexivity. Qed.

Lemma ungroup_cons_point (l : list ascii) :
  ungroup ("."%char :: l) = "."%char :: ungroup l.
Proof. reflexivity. Qed.

Lemma ungroup_digits (l : list ascii) :
  forallb is_digit l = true -> ungroup l = l.
Proof.
  induction l as [|c l IH]; [reflexivity|]. cbn [forallb ungroup List.filter].
  intros [Hc Hl]%andb_true_iff. rewrite (digit_not_comma c Hc). cbn [negb].
  f_equal. now apply IH.
Qed.

Lemma ungroup_group3_rev (n : nat) (ds : list ascii) :
  (length ds <= n)%nat -> forallb is_digit ds = true ->
  ungroup (group3_rev ds) = ds
  /\ forallb digit_or_comma (group3_rev ds) = true.
Proof.
  revert ds. induction n as [|n IH]; intros ds Hlen Hd.
  - destruct ds; [|cbn in Hlen; lia]. now cbn.
  - assert (forall l, forallb is_digit l = true ->
                      forallb digit_or_comma l = true) as Hdc.
    { induction l as [|c l IHl]; [reflexivity|]. cbn [forallb].
      intros [Hc Hl]%andb_true_iff. unfold digit_or_comma at 1.
      now rewrite Hc, IHl. }
    destruct ds as [|a [|b [|c [|d rest]]]];
      try (split; [now apply ungroup_digits | now apply Hdc]).
    change (group3_rev (a :: b :: c :: d :: rest))
      with (a :: b :: c :: ","%char :: group3_rev (d :: rest)).
    cbn [forallb] in Hd. apply andb_true_iff in Hd as [Ha Hd].
    apply andb_true_iff in Hd as [Hb Hd].
    apply andb_true_iff in Hd as [Hc Hd].
    destruct (IH (d :: rest)) as [Hu Hr]; [cbn in *; lia | exact Hd |].
    split.
    + rewrite !ungroup_cons_digit, ungroup_cons_comma by assumption.
      now rewrite Hu.
    + cbn [forallb]. unfold digit_or_comma at 1 2 3 4.
      now rewrite Ha, Hb, Hc, Hr.
Qed.

Lemma forallb_rev {A : Type} (f : A -> bool) (l : list A) :
  forallb f (rev l) = forallb f l.
Proof.
  induction l as [|x l IH]; [reflexivity|]. cbn.
  rewrite forallb_app, IH. cbn. rewrite andb_true_r. apply andb_comm.
Qed.

Lemma ungroup_group3 (ds : list ascii) :
  forallb is_digit ds = true ->
  ungroup (group3 ds) = ds /\ forallb digit_or_comma (group3 ds) = true.
Proof.
  intros H. unfold group3.
  assert (forallb is_digit (rev ds) = true) as Hr by now rewrite forallb_rev.
  destruct (ungroup_group3_rev _ _ (Nat.le_refl _) Hr) as [Hu Hc].
  split.
  - unfold ungroup in *. now rewrite filter_rev, Hu, rev_involutive.
  - now rewrite forallb_rev.
Qed.

(** The integral part as [fixed2] writes it. *)
Lemma integral_part (comma : bool) (n : Z) :
  let ip := if comma then group3 (digits n) else digits n in
  ungroup ip = digits n /\ forallb digit_or_comma ip = true /\ ip <> [].
Proof.
  cbn zeta. pose proof (FormatFacts.digits_all n) as Ha.
  pose proof (FormatFacts.digits_nonnil n) as Hn.
  destruct comma.
  - destruct (ungroup_group3 _ Ha) as [Hu Hc]. repeat split; auto.
    intros E. rewrite E in Hu. cbn in Hu. congruence.
  - split; [now apply ungroup_digits|]. split; [|exact Hn].
    clear Hn. induction (digits n) as [|c l IHl]; [reflexivity|].
    cbn [forallb] in *. apply andb_true_iff in Ha as [Hc Hl].
    unfold digit_or_comma at 1. now rewrite Hc, IHl.
Qed.

Lemma read_unsigned2_fixed (comma : bool) (h : Z) :
  0 <= h ->
  read_unsigned2
    ((if comma then group3 (digits (h / 100)) else digits (h / 100))
       ++ "."%char :: digit_char (h mod 100 / 10) :: digit_char (h mod 10) :: [])
  = Some h.
Proof.
  intros Hh. destruct (integral_part comma (h / 100)) as (Hu & _ & _).
  cbn zeta in Hu. unfold read_unsigned2.
  assert (0 <= h mod 100 / 10 < 10) as B1.
  { assert (0 <= h mod 100 < 100) by (apply Z.mod_pos_bound; lia).
    split; [apply Z.div_pos; lia | apply Z.div_lt_upper_bound; lia]. }
  assert (0 <= h mod 10 < 10) as B2 by (apply Z.mod_pos_bound; lia).
  pose proof (FormatFacts.digit_char_is_digit _ B1) as D1.
  pose proof (FormatFacts.digit_char_is_digit _ B2) as D2.
  assert (forall l1 l2, ungroup (l1 ++ l2) = ungroup l1 ++ ungroup l2) as Happ
    by (intros; apply List.filter_app).
  rewrite Happ, Hu, ungroup_cons_point, !ungroup_cons_digit by assumption.
  change (ungroup []) with (@nil ascii).
  rewrite rev_app_distr. cbn [rev app].
  pose proof (FormatFacts.digits_nonnil (h / 100)) as Hn.
  pose proof (FormatFacts.digits_all (h / 100)) as Ha.
  rewrite <- forallb_rev in Ha.
  destruct (rev (digits (h / 100))) as [|d0 rest] eqn:E.
  { apply (f_equal (@rev ascii)) in E. rewrite rev_involutive in E. now cbn in E. }
  cbn [forallb] in Ha |- *. rewrite D1, D2, Ha.
  cbn [andb Ascii.eqb Bool.eqb].
  change (rev rest ++ [d0]) with (rev (d0 :: rest)).
  rewrite <- E, rev_involutive, digits_value_digits
    by (apply Z.div_pos; lia).
  rewrite !digit_value_digit_char by assumption.
  f_equal. Z.div_mod_to_equations. lia.
Qed.

Lemma read_fixed2_chars_fixed (comma s : bool) (h : Z) :
  0 <= h -> read_fixed2_chars (fixed2 comma s h) = Some (s, h).
Proof.
  intros Hh. unfold fixed2, read_fixed2_chars. destruct s; cbn [sign_chars app].
  - cbn [Ascii.eqb Bool.eqb andb]. cbn -[digits digit_char Z.div Z.modulo group3 read_unsigned2].
    now rewrite read_unsigned2_fixed.
  - destruct (integral_part comma (h / 100)) as (_ & Hc & Hn). cbn zeta in Hc, Hn.
    pose proof (read_unsigned2_fixed comma h Hh) as R.
    destruct (if comma then group3 (digits (h / 100)) else digits (h / 100))
      as [|c ip]; [congruence|].
    cbn [app] in *. cbn [forallb] in Hc. apply andb_true_iff in Hc as [Hc _].
    destruct (Ascii.eqb_spec c "-"%char) as [->|_]; [discriminate Hc|].
    now rewrite R.
Qed.

Lemma hundredths_nonneg (m : positive) (e : Z) : 0 <= hundredths m e.
Proof.
  unfold hundredths. destruct (0 <=? e) eqn:E.
  - apply Z.leb_le in E. apply Z.mul_nonneg_nonneg; [|lia].
    apply Z.mul_nonneg_nonneg; [lia|]. now apply Z.pow_nonneg.
  - apply Z.leb_gt in E. unfold round_half_even.
    assert (0 < 2 ^ (- e)) as Hd by (apply Z.pow_pos_nonneg; lia).
    assert (0 <= Z.pos m * 100 / 2 ^ (- e)) as Hq by (apply Z.div_pos; lia).
    destruct (_ ?= _); [destruct (Z.even _)| |]; lia.
Qed.

(** X10.  The text that [.2f] and [,.2f] produce reads back as the number
    it was made from: its sign and digits, commas dropped, denote the
    absolute value in hundredths rounded to nearest, at most half a
    hundredth away from the float; the text of an infinity or of NaN
    denotes no number. *)
Theorem displayed_number_reads_back (x : float) :
  read_fixed2 (format_comma_2f x) = hundredths_of x
  /\ read_fixed2 (format_2f x) = hundredths_of x
  /\ (forall (s : bool) (m : positive) (e : Z),
        x = S754_finite s m e ->
        Z.abs (2 * (Zpos m * 100 * 2 ^ Z.max 0 e
                    - hundredths m e * 2 ^ Z.max 0 (- e)))
          <= 2 ^ Z.max 0 (- e)).
Proof.
  unfold read_fixed2, format_comma_2f, format_2f.
  rewrite !list_ascii_of_string_of_list_ascii.
  assert (forall comma, read_fixed2_chars (format_2f_chars comma x)
                        = hundredths_of x) as H.
  { intros comma. destruct x as [s|s| |s m e]; cbn [format_2f_chars hundredths_of].
    - now apply read_fixed2_chars_fixed.
    - destruct s; reflexivity.
    - reflexivity.
    - apply read_fixed2_chars_fixed, hundredths_nonneg. }
  split; [apply H|]. split; [apply H|].
  intros s m e _. unfold hundredths. destruct (0 <=? e) eqn:E.
  - apply Z.leb_le in E. rewrite (Z.max_r 0 e), (Z.max_l 0 (- e)) by lia.
    cbn [Z.pow]. rewrite Z.mul_1_r.
    replace (Z.pos m * 100 * 2 ^ e - Z.pos m * 2 ^ e * 100) with 0 by ring.
    cbn. lia.
  - apply Z.leb_gt in E. rewrite (Z.max_l 0 e), (Z.max_r 0 (- e)) by lia.
    cbn [Z.pow]. rewrite Z.mul_1_r.
    apply FormatFacts.round_half_even_nearest. apply Z.pow_pos_nonneg; lia.
Qed.

Lemma displayed_number_reads_back_witness :
  read_fixed2 "1,234,567.89" = Some (false, 123456789).
Proof.
  apply (displayed_number_reads_back (of_ratio 1234567891 1000)).
Defined.

(** X11.  The thousands separators are the only difference between the
    text of the metric and the plain [.2f] text: dropping the commas of
    [,.2f] gives [.2f], for every float. *)
Theorem commas_are_the_only_difference (x : float) :
  ungroup (list_ascii_of_string (format_comma_2f x))
  = list_ascii_of_string (format_2f x).
Proof.
  unfold format_comma_2f, format_2f. rewrite !list_ascii_of_string_of_list_ascii.
  assert (forall s h, ungroup (fixed2 true s h) = fixed2 false s h) as H.
  { intros s h. unfold fixed2.
    destruct (integral_part true (h / 100)) as (Hu & _ & _). cbn zeta in Hu.
    assert (0 <= h mod 100 / 10 < 10) as B1.
    { assert (0 <= h mod 100 < 100) by (apply Z.mod_pos_bound; lia).
      split; [apply Z.div_pos; lia | apply Z.div_lt_upper_bound; lia]. }
    assert (0 <= h mod 10 < 10) as B2 by (apply Z.mod_pos_bound; lia).
    pose proof (FormatFacts.digit_char_is_digit _ B1) as D1.
    pose proof (FormatFacts.digit_char_is_digit _ B2) as D2.
    assert (forall l1 l2, ungroup (l1 ++ l2) = ungroup l1 ++ ungroup l2) as Happ
      by (intros; apply List.filter_app).
    rewrite !Happ, Hu, ungroup_cons_point, !ungroup_cons_digit by assumption.
    destruct s; reflexivity. }
  destruct x as [s|s| |s m e]; cbn [format_2f_chars]; auto.
  - destruct s; reflexivity.
Qed.

End DisplayFacts.
